(** * StatsTracker: bounded-history running averages of training statistics

    A shallow embedding of [mattport/utils/stats_tracker.py].  The class
    [StatsTracker] keeps a dictionary from [Stats] keys to either a plain
    float or a record [{"buffer": [...], "avg": ...}], a step counter and a
    "new key" flag.  Python floats are IEEE binary64 numbers, embedded here
    as Rocq's primitive floats; Python ints are unbounded, embedded as [Z].

    The embedding covers the bodies of the methods.  The decorators of
    [mattport.utils.decorators] ([check_stats_enabled], [check_main_thread],
    [check_print_stats_step]) wrap those bodies from another file and only
    decide whether a body runs at all; what follows is about a body that
    runs: statistics enabled, on the main process, at a step that prints. *)

From Stdlib Require Import ZArith List ListSet String Ascii Bool Lia DecimalString.
From Stdlib Require DecimalFacts DecimalPos.
From Stdlib Require Import Floats.PrimFloat Floats.SpecFloat Floats.FloatOps.
Import ListNotations.

Local Open Scope Z_scope.

(** ** Exceptions and outcomes *)

Inductive exn : Set :=
| TypeError
| ZeroDivisionError
| OverflowError
| IndexError
| KeyError
| ValueError.

(** [ZeroDivisionError] and [OverflowError] derive from Python's
    [ArithmeticError]. *)
Definition is_ArithmeticError (e : exn) : bool :=
  match e with
  | ZeroDivisionError | OverflowError => true
  | _ => false
  end.

Inductive outcome (A : Type) : Type :=
| Returns (a : A)
| Raises (e : exn).

Arguments Returns {A} a.
Arguments Raises {A} e.

(** ** Python arithmetic on [int] and [float] *)

Module Py.

(** [float(n)] for an int [n]: rounded to the nearest double, ties to even;
    an int beyond the range of a double raises [OverflowError]. *)
Definition float_of_int (n : Z) : outcome float :=
  let f := SF2Prim (binary_normalize prec emax n 0 false) in
  if PrimFloat.is_infinity f then Raises OverflowError else Returns f.

(** [float(len(l))]: a list length is below [2^63], so the conversion
    never overflows. *)
Definition float_of_len (n : nat) : float :=
  PrimFloat.of_uint63 (Uint63Axioms.of_Z (Z.of_nat n)).

(** [a - b] on floats. *)
Definition sub (a b : float) : float := PrimFloat.sub a b.

(** [n / d] with [n] an int and [d] a float: [n] is converted first, then
    a zero divisor raises. *)
Definition truediv_int_float (n : Z) (d : float) : outcome float :=
  match float_of_int n with
  | Raises e => Raises e
  | Returns a =>
      if PrimFloat.eqb d PrimFloat.zero then Raises ZeroDivisionError
      else Returns (PrimFloat.div a d)
  end.

(** [x / len(l)] with [x] a float. *)
Definition truediv_float_len (x : float) (n : nat) : outcome float :=
  match n with
  | O => Raises ZeroDivisionError
  | S _ => Returns (PrimFloat.div x (float_of_len n))
  end.

(** [n * x] with [n] an int and [x] a float. *)
Definition mul_int_float (n : Z) (x : float) : outcome float :=
  match float_of_int n with
  | Raises e => Raises e
  | Returns a => Returns (PrimFloat.mul a x)
  end.

(** [sum(l)] on a list of floats: left to right from the int [0].  (CPython
    from 3.12 on compensates the rounding of these additions; no property
    below depends on how the sum is rounded.) *)
Definition sum (l : list float) : float :=
  fold_left PrimFloat.add l PrimFloat.zero.

(** [f"{s:<n}"]: pad with spaces on the right up to width [n]. *)
Definition ljust (n : nat) (s : string) : string :=
  (s ++ String.concat "" (List.repeat " " (n - String.length s)))%string.

(** [sub in s] on strings. *)
Definition contains (sub s : string) : bool :=
  match String.index 0 sub s with
  | Some _ => true
  | None => false
  end.

(** The decimal digits of an int, with its sign. *)
Definition decimal (n : Z) : string := NilZero.string_of_int (Z.to_int n).

(** [str(n)] and [f"{n}"] for an int: CPython refuses to render an int of
    more than 4300 digits (the sign not counted) and raises [ValueError]. *)
Definition str_int (n : Z) : outcome string :=
  if (String.length (decimal (Z.abs n)) <=? 4300)%nat then Returns (decimal n)
  else Raises ValueError.

(** [len(l)]: a list holds fewer than [2^63] elements. *)
Definition len {A : Type} (l : list A) : Z := Z.of_nat (List.length l) mod 2 ^ 63.

End Py.

(** ** The [Stats] enumeration *)

Inductive Stats : Set :=
| ITER_LOAD_TIME
| ITER_TRAIN_TIME
| TOTAL_TRAIN_TIME
| RAYS_PER_SEC
| CURR_TEST_PSNR
| ETA.

Scheme Equality for Stats.

(** [k.value] *)
Definition Stats_value (k : Stats) : string :=
  match k with
  | ITER_LOAD_TIME => "Data Load (ms)"
  | ITER_TRAIN_TIME => "Train Iter (ms)"
  | TOTAL_TRAIN_TIME => "Train Total (time)"
  | RAYS_PER_SEC => "Rays Per Sec (1/s)"
  | CURR_TEST_PSNR => "Test PSNR"
  | ETA => "ETA (time)"
  end.

(** [Stats[name]] *)
Definition Stats_getitem (name : string) : outcome Stats :=
  if String.eqb name "ITER_LOAD_TIME" then Returns ITER_LOAD_TIME
  else if String.eqb name "ITER_TRAIN_TIME" then Returns ITER_TRAIN_TIME
  else if String.eqb name "TOTAL_TRAIN_TIME" then Returns TOTAL_TRAIN_TIME
  else if String.eqb name "RAYS_PER_SEC" then Returns RAYS_PER_SEC
  else if String.eqb name "CURR_TEST_PSNR" then Returns CURR_TEST_PSNR
  else if String.eqb name "ETA" then Returns ETA
  else Raises KeyError.

(** ** The statistics dictionary

    A value of [stats_dict] is a float or a [{"buffer", "avg"}] record.  The
    dictionary keeps insertion order, which is the order of display. *)

Inductive entry : Type :=
| Scalar (v : float)
| Averaged (buffer : list float) (avg : float).

Definition dict := list (Stats * entry).

Fixpoint dict_get (k : Stats) (d : dict) : option entry :=
  match d with
  | [] => None
  | (k', e) :: d' => if Stats_beq k k' then Some e else dict_get k d'
  end.

(** [k in d] *)
Definition dict_mem (k : Stats) (d : dict) : bool :=
  match dict_get k d with
  | Some _ => true
  | None => false
  end.

(** [d[k] = e]: an existing key keeps its place, a new one goes last. *)
Fixpoint dict_set (k : Stats) (e : entry) (d : dict) : dict :=
  match d with
  | [] => [(k, e)]
  | (k', e') :: d' =>
      if Stats_beq k k' then (k, e) :: d' else (k', e') :: dict_set k e d'
  end.

(** The list object under [d[k]["buffer"]] mutated in place to [b]: the
    record, when there is one, sees the new contents and keeps its ["avg"]. *)
Definition dict_alias_buffer (k : Stats) (b : list float) (d : dict) : dict :=
  match dict_get k d with
  | Some (Averaged _ avg) => dict_set k (Averaged b avg) d
  | _ => d
  end.

(** ** Configuration and tracker state *)

Record Config : Type := mkConfig {
  enable_stats : bool;             (* logging.enable_stats *)
  cfg_max_history : Z;             (* logging.stats_tracker.max_history *)
  cfg_stats_to_track : list string; (* logging.stats_tracker.stats_to_track *)
  max_num_iterations : Z           (* graph.max_num_iterations *)
}.

Record StatsTracker : Type := mkStatsTracker {
  config : Config;
  max_history : Z;
  step : option Z;                 (* [None] is Python's None *)
  stats_dict : dict;
  past_stats : list string;
  new_key : bool;
  stats_to_track : set Stats
}.

Definition with_step (st : option Z) (self : StatsTracker) : StatsTracker :=
  mkStatsTracker self.(config) self.(max_history) st self.(stats_dict)
                 self.(past_stats) self.(new_key) self.(stats_to_track).

Definition with_new_key (b : bool) (self : StatsTracker) : StatsTracker :=
  mkStatsTracker self.(config) self.(max_history) self.(step) self.(stats_dict)
                 self.(past_stats) b self.(stats_to_track).

Definition with_stats_dict (d : dict) (self : StatsTracker) : StatsTracker :=
  mkStatsTracker self.(config) self.(max_history) self.(step) d
                 self.(past_stats) self.(new_key) self.(stats_to_track).

Definition tracked (name : Stats) (self : StatsTracker) : bool :=
  set_mem Stats_eq_dec name self.(stats_to_track).

(** ** A state monad with exceptions

    A method runs on the tracker and either returns or raises; whatever it
    wrote to the tracker before raising stays written. *)

Definition M (A : Type) : Type := StatsTracker -> StatsTracker * outcome A.

Definition ret {A} (a : A) : M A := fun self => (self, Returns a).

Definition raise {A} (e : exn) : M A := fun self => (self, Raises e).

Definition bind {A B} (m : M A) (k : A -> M B) : M B :=
  fun self =>
    match m self with
    | (self', Returns a) => k a self'
    | (self', Raises e) => (self', Raises e)
    end.

Definition get : M StatsTracker := fun self => (self, Returns self).

Definition modify (f : StatsTracker -> StatsTracker) : M unit :=
  fun self => (f self, Returns tt).

Definition lift {A} (o : outcome A) : M A := fun self => (self, o).

Declare Scope py_scope.
Delimit Scope py_scope with py.
Notation "x <- m ;; k" := (bind m (fun x => k))
  (at level 61, m at next level, right associativity) : py_scope.
Notation "m ;; k" := (bind m (fun _ => k))
  (at level 61, right associativity) : py_scope.
Local Open Scope py_scope.

(** ** [StatsTracker.__init__]

    With statistics enabled the object gets all its attributes.  With
    statistics disabled it gets [config] and nothing else: the listed names
    are not even read. *)

Inductive instance : Type :=
| Disabled (cfg : Config)
| Enabled (self : StatsTracker).

Fixpoint collect_stats (names : list string) (acc : set Stats) : outcome (set Stats) :=
  match names with
  | [] => Returns acc
  | name :: names' =>
      match Stats_getitem name with
      | Returns k => collect_stats names' (set_add Stats_eq_dec k acc)
      | Raises e => Raises e
      end
  end.

Definition init (cfg : Config) : outcome instance :=
  if cfg.(enable_stats) then
    match collect_stats cfg.(cfg_stats_to_track) (empty_set Stats) with
    | Returns s =>
        Returns (Enabled (mkStatsTracker cfg cfg.(cfg_max_history) (Some 0)
                                         [] [] false s))
    | Raises e => Raises e
    end
  else Returns (Disabled cfg).

(** ** [update_value] *)

Definition update_value (name : Stats) (value : float) (step : Z) : M unit :=
  self <- get ;;
  if tracked name self then
    modify (with_step (Some step)) ;;
    modify (fun self =>
      with_new_key (negb (dict_mem name self.(stats_dict)) || self.(new_key)) self) ;;
    modify (fun self => with_stats_dict (dict_set name (Scalar value) self.(stats_dict)) self)
  else ret tt.

(** ** [update_time] *)

(** [if batch_size:] holds for an int other than [0]. *)
Definition truthy (batch_size : option Z) : option Z :=
  match batch_size with
  | Some 0 => None
  | other => other
  end.

(** [curr_buffer.pop(0)], on the list object that [stats_dict[name]] may
    hold. *)
Definition buffer_pop0 (name : Stats) (curr_buffer : list float) : M (list float) :=
  match curr_buffer with
  | [] => raise IndexError
  | _ :: rest =>
      modify (fun self =>
        with_stats_dict (dict_alias_buffer name rest self.(stats_dict)) self) ;;
      ret rest
  end.

(** [curr_buffer.append(val)], on the same list object. *)
Definition buffer_append (name : Stats) (curr_buffer : list float) (val : float)
  : M (list float) :=
  let grown := curr_buffer ++ [val] in
  modify (fun self =>
    with_stats_dict (dict_alias_buffer name grown self.(stats_dict)) self) ;;
  ret grown.

Definition update_time (name : Stats) (start_time end_time : float)
    (step : option Z) (batch_size : option Z) : M unit :=
  self <- get ;;
  if tracked name self then
    modify (with_step step) ;;
    modify (fun self =>
      with_new_key (negb (dict_mem name self.(stats_dict)) || self.(new_key)) self) ;;
    val <- (match truthy batch_size with
            | Some n => lift (Py.truediv_int_float n (Py.sub end_time start_time))
            | None => ret (Py.sub end_time start_time)
            end) ;;
    (match step with
     | Some _ =>
         self <- get ;;
         curr_buffer <- (match dict_get name self.(stats_dict) with
                         | None => ret []
                         | Some (Averaged buffer _) => ret buffer
                         | Some (Scalar _) => raise TypeError
                         end) ;;
         curr_buffer <- (if self.(max_history) <=? Z.of_nat (List.length curr_buffer)
                         then buffer_pop0 name curr_buffer
                         else ret curr_buffer) ;;
         curr_buffer <- buffer_append name curr_buffer val ;;
         curr_avg <- lift (Py.truediv_float_len (Py.sum curr_buffer) (List.length curr_buffer)) ;;
         modify (fun self =>
           with_stats_dict
             (dict_set name (Averaged curr_buffer curr_avg) self.(stats_dict)) self)
     | None =>
         modify (fun self =>
           with_stats_dict (dict_set name (Scalar val) self.(stats_dict)) self)
     end) ;;
    self <- get ;;
    if Stats_beq name ITER_TRAIN_TIME && tracked ETA self then
      remain_iter <- (match step with
                      | Some s => ret (self.(config).(max_num_iterations) - s)
                      | None => raise TypeError
                      end) ;;
      avg <- (match dict_get name self.(stats_dict) with
              | Some (Averaged _ avg) => ret avg
              | Some (Scalar _) => raise TypeError
              | None => raise KeyError
              end) ;;
      eta <- lift (Py.mul_int_float remain_iter avg) ;;
      modify (fun self =>
        with_stats_dict (dict_set ETA (Scalar eta) self.(stats_dict)) self)
    else ret tt
  else ret tt.

(** ** Display: [handle_header], [handle_stats], [print_stats]

    What [print] writes to the terminal is the value a method returns here.
    The renderings of floats are Python's own ([format] with [.02f] and
    [0.4f], [str] of a [datetime.timedelta]); they stay parameters. *)

Record Formatting : Type := mkFormatting {
  format_2f : float -> string;
  format_4f : float -> string;
  timedelta_str : float -> outcome string  (* raises on nan and out of range *)
}.

Definition newline : string := String "010" EmptyString.

(** [print(s)] *)
Definition print_line (s : string) : string := (s ++ newline)%string.

(** [cursorup(x)], printed with [end=""]. *)
Definition cursorup (x : Z) : outcome string :=
  match Py.str_int x with
  | Returns digits =>
      Returns (String "013" (String "027" "[") ++ digits ++ "A")%string
  | Raises e => Raises e
  end.

(** [self.step > 0] *)
Definition step_positive : M bool :=
  self <- get ;;
  match self.(step) with
  | Some s => ret (0 <? s)
  | None => raise TypeError
  end.

(** [self.step == 0] *)
Definition step_is_zero (self : StatsTracker) : bool :=
  match self.(step) with
  | Some s => s =? 0
  | None => false
  end.

Definition handle_header : M string :=
  self <- get ;;
  if step_is_zero self || self.(new_key) then
    let mssg :=
      fold_left (fun mssg kv => (mssg ++ Py.ljust 20 (Stats_value (fst kv)) ++ " ")%string)
                self.(stats_dict) (Py.ljust 20 "Step (% Done)") in
    up <- step_positive ;;
    out <- (if (up : bool)
            then lift (cursorup (Py.len self.(past_stats) + 2))
            else ret EmptyString) ;;
    let out := (out ++ print_line mssg
                    ++ print_line (String.concat "" (List.repeat "-" (String.length mssg))))%string in
    again <- step_positive ;;
    ret (if again
         then fold_left (fun out mssg => (out ++ print_line mssg)%string) self.(past_stats) out
         else out)
  else ret EmptyString.

(** One pass of the loop of [handle_stats]: the cell for [k, v]. *)
Definition stat_cell (fmt : Formatting) (k : Stats) (v : entry) : outcome string :=
  let v := match v with
           | Averaged _ avg => avg
           | Scalar x => x
           end in
  if Py.contains "(time)" (Stats_value k) then fmt.(timedelta_str) v
  else if Py.contains "(ms)" (Stats_value k)
       then Returns (fmt.(format_4f) (PrimFloat.mul v 1000%float))
       else Returns (fmt.(format_4f) v).

Fixpoint stats_row (fmt : Formatting) (items : dict) (curr_mssg : string)
  : outcome string :=
  match items with
  | [] => Returns curr_mssg
  | (k, v) :: rest =>
      match stat_cell fmt k v with
      | Returns cell => stats_row fmt rest (curr_mssg ++ Py.ljust 20 cell ++ " ")%string
      | Raises e => Raises e
      end
  end.

Definition handle_stats (fmt : Formatting) (fraction_done : float) : M string :=
  shown <- step_positive ;;
  if (shown : bool) then
    self <- get ;;
    step_text <- (match self.(step) with
                  | Some s => lift (Py.str_int s)
                  | None => ret "None"%string
                  end) ;;
    let curr_mssg :=
      (step_text
       ++ " (" ++ fmt.(format_2f) (PrimFloat.mul fraction_done 100%float) ++ "%)")%string in
    curr_mssg <- lift (stats_row fmt self.(stats_dict) (Py.ljust 20 curr_mssg)) ;;
    ret (print_line curr_mssg)
  else ret EmptyString.

Definition print_stats (fmt : Formatting) (fraction_done : float) : M string :=
  handle_stats fmt fraction_done.

(** ** Sequences of calls

    A caller may catch what a call raises and go on; [run] keeps the tracker
    each call leaves behind, returned or raised. *)

Inductive call : Type :=
| UpdateValue (name : Stats) (value : float) (step : Z)
| UpdateTime (name : Stats) (start_time end_time : float)
             (step : option Z) (batch_size : option Z)
| PrintStats (fraction_done : float).

Definition exec (fmt : Formatting) (c : call) (self : StatsTracker) : StatsTracker :=
  match c with
  | UpdateValue name value step => fst (update_value name value step self)
  | UpdateTime name start_time end_time step batch_size =>
      fst (update_time name start_time end_time step batch_size self)
  | PrintStats fraction_done => fst (print_stats fmt fraction_done self)
  end.

Definition run (fmt : Formatting) (calls : list call) (self : StatsTracker)
  : StatsTracker :=
  fold_left (fun self c => exec fmt c self) calls self.

(** ** Vocabulary of the properties *)

(** The value a call to [update_time] derives from its arguments: the
    duration, or the batch size over the duration. *)
Definition derived_value (start_time end_time : float) (batch_size : option Z)
  : outcome float :=
  match truthy batch_size with
  | Some n => Py.truediv_int_float n (Py.sub end_time start_time)
  | None => Returns (Py.sub end_time start_time)
  end.

(** The arithmetic mean of a list of floats: their sum over their number. *)
Definition arithmetic_mean (l : list float) : float :=
  PrimFloat.div (Py.sum l) (Py.float_of_len (List.length l)).

(** The last [n] elements of a list, in order. *)
Definition lastn {A : Type} (n : nat) (l : list A) : list A :=
  skipn (List.length l - n) l.

(** A call to [update_time] that passes a step. *)
Definition step_present (c : call) : bool :=
  match c with
  | UpdateTime _ _ _ (Some _) _ => true
  | _ => false
  end.

(** The key an ingestion call names. *)
Definition call_name (c : call) : option Stats :=
  match c with
  | UpdateValue name _ _ => Some name
  | UpdateTime name _ _ _ _ => Some name
  | PrintStats _ => None
  end.

(** The step an ingestion call supplies. *)
Definition call_step (c : call) : option Z :=
  match c with
  | UpdateValue _ _ step => Some step
  | UpdateTime _ _ _ step _ => step
  | PrintStats _ => None
  end.

(** What a call records for [name]: the value an [update_time] with a step
    derives, when the derivation does not raise. *)
Definition recorded (name : Stats) (c : call) : list float :=
  match c with
  | UpdateTime n start_time end_time (Some _) batch_size =>
      if Stats_beq n name then
        match derived_value start_time end_time batch_size with
        | Returns v => [v]
        | Raises _ => []
        end
      else []
  | _ => []
  end.

Definition recorded_values (name : Stats) (calls : list call) : list float :=
  flat_map (recorded name) calls.

(** The tracker once an ingestion call on a tracked key has written the
    step and the flag. *)
Definition entered (name : Stats) (st : option Z) (self : StatsTracker)
  : StatsTracker :=
  with_new_key (negb (dict_mem name self.(stats_dict)) || self.(new_key))
               (with_step st self).

(** A buffer of capacity [cap] after the insertion of [val]: the oldest
    element goes when the buffer is full. *)
Definition pushed (cap : Z) (buf : list float) (val : float) : list float :=
  (if cap <=? Z.of_nat (List.length buf) then tl buf else buf) ++ [val].

(** The buffer [update_time] starts from. *)
Definition buffer_of (e : option entry) : list float :=
  match e with
  | Some (Averaged b _) => b
  | _ => []
  end.

(** What holds of every tracker the calls can reach: a key in the
    dictionary is a tracked one, and a buffer is never empty nor longer than
    [max_history]. *)
Definition entry_ok (cap : Z) (x : entry) : Prop :=
  match x with
  | Scalar _ => True
  | Averaged buf _ => buf <> [] /\ Z.of_nat (List.length buf) <= cap
  end.

Definition dict_ok (keys : set Stats) (cap : Z) (d : dict) : Prop :=
  forall k x,
    dict_get k d = Some x ->
    set_mem Stats_eq_dec k keys = true /\ entry_ok cap x.

Definition well_formed (self : StatsTracker) : Prop :=
  dict_ok self.(stats_to_track) self.(max_history) self.(stats_dict).

(** Steps in order; [None] is not comparable. *)
Definition step_le (a b : option Z) : Prop :=
  match a, b with
  | Some x, Some y => x <= y
  | _, _ => False
  end.

(** [k.name], the member name that [Stats[name]] looks up. *)
Definition Stats_name (k : Stats) : string :=
  match k with
  | ITER_LOAD_TIME => "ITER_LOAD_TIME"
  | ITER_TRAIN_TIME => "ITER_TRAIN_TIME"
  | TOTAL_TRAIN_TIME => "TOTAL_TRAIN_TIME"
  | RAYS_PER_SEC => "RAYS_PER_SEC"
  | CURR_TEST_PSNR => "CURR_TEST_PSNR"
  | ETA => "ETA"
  end.

(** The keys of the dictionary, in the order a loop over it visits them. *)
Definition dict_keys (d : dict) : list Stats := map fst d.

(** An ingestion call whose key the tracker tracks. *)
Definition names_tracked_key (self : StatsTracker) (c : call) : bool :=
  match call_name c with
  | Some k => tracked k self
  | None => false
  end.

(** The float [handle_stats] displays for an entry. *)
Definition shown_value (x : entry) : float :=
  match x with
  | Averaged _ avg => avg
  | Scalar v => v
  end.

(** The header line [handle_header] builds: the step column, then a column
    for each key of the dictionary. *)
Definition header_row (d : dict) : string :=
  fold_left (fun mssg kv => (mssg ++ Py.ljust 20 (Stats_value (fst kv)) ++ " ")%string)
            d (Py.ljust 20 "Step (% Done)").

(** The step column of the line [handle_stats] builds. *)
Definition step_column (fmt : Formatting) (s : Z) (fraction_done : float) : string :=
  (Py.decimal s ++ " (" ++ fmt.(format_2f) (PrimFloat.mul fraction_done 100%float)
   ++ "%)")%string.

(** What [cursorup(x)] prints when it prints. *)
Definition cursorup_text (x : Z) : string :=
  (String "013" (String "027" "[") ++ Py.decimal x ++ "A")%string.

(** A call that reaches the assignment to [stats_dict[Stats.ETA]]: an
    [update_time] on [ITER_TRAIN_TIME], with both keys tracked, that
    returns. *)
Definition writes_eta (c : call) (self : StatsTracker) : bool :=
  match c with
  | UpdateTime n start_time end_time st batch_size =>
      Stats_beq n ITER_TRAIN_TIME
      && tracked ITER_TRAIN_TIME self && tracked ETA self
      && match snd (update_time n start_time end_time st batch_size self) with
         | Returns _ => true
         | Raises _ => false
         end
  | _ => false
  end.

(** Some call of the sequence, run from [self], has written the [ETA]
    entry in that way. *)
Fixpoint eta_written (fmt : Formatting) (calls : list call) (self : StatsTracker)
  : bool :=
  match calls with
  | [] => false
  | c :: rest => writes_eta c self || eta_written fmt rest (exec fmt c self)
  end.

(** ** A configuration to run the code on *)

Definition example_config : Config :=
  mkConfig true 2 ["ITER_TRAIN_TIME"; "ETA"; "RAYS_PER_SEC"]%string 1000.

Definition example_tracker : StatsTracker :=
  mkStatsTracker example_config 2 (Some 0) [] [] false
                 [ITER_TRAIN_TIME; ETA; RAYS_PER_SEC].

(** A stand-in for Python's renderings of floats. *)
Definition example_formatting : Formatting :=
  mkFormatting (fun _ => "0.00"%string) (fun _ => "0.0000"%string)
               (fun _ => Returns "0:00:00"%string).

(** * Properties *)

(** ** Keys and dictionaries *)

Lemma Stats_beq_eq (a b : Stats) : Stats_beq a b = true <-> a = b.
Proof. destruct a, b; simpl; split; intro H; congruence. Qed.

Lemma Stats_beq_refl (a : Stats) : Stats_beq a a = true.
Proof. now apply Stats_beq_eq. Qed.

Lemma Stats_beq_neq (a b : Stats) : a <> b -> Stats_beq a b = false.
Proof.
  intro H. destruct (Stats_beq a b) eqn:E; [|reflexivity].
  apply Stats_beq_eq in E. contradiction.
Qed.

Lemma dict_get_set_same (k : Stats) (e : entry) (d : dict) :
  dict_get k (dict_set k e d) = Some e.
Proof.
  induction d as [|[k' e'] d IH]; simpl.
  - now rewrite Stats_beq_refl.
  - destruct (Stats_beq k k') eqn:E; simpl.
    + now rewrite Stats_beq_refl.
    + now rewrite E.
Qed.

Lemma dict_get_set_other (k k' : Stats) (e : entry) (d : dict) :
  k <> k' -> dict_get k (dict_set k' e d) = dict_get k d.
Proof.
  intro Hne. induction d as [|[k0 e0] d IH]; simpl.
  - now rewrite (Stats_beq_neq k k').
  - destruct (Stats_beq k' k0) eqn:E; simpl.
    + apply Stats_beq_eq in E. subst k0.
      now rewrite (Stats_beq_neq k k').
    + now rewrite IH.
Qed.

Lemma dict_set_set (k : Stats) (e e' : entry) (d : dict) :
  dict_set k e (dict_set k e' d) = dict_set k e d.
Proof.
  induction d as [|[k0 e0] d IH]; simpl.
  - now rewrite Stats_beq_refl.
  - destruct (Stats_beq k k0) eqn:E; simpl.
    + now rewrite Stats_beq_refl.
    + now rewrite E, IH.
Qed.

Lemma dict_set_alias (k : Stats) (e : entry) (b : list float) (d : dict) :
  dict_set k e (dict_alias_buffer k b d) = dict_set k e d.
Proof.
  unfold dict_alias_buffer.
  destruct (dict_get k d) as [[v|b0 avg]|]; try reflexivity.
  apply dict_set_set.
Qed.

Lemma truediv_float_len_snoc (x : float) (b : list float) (v : float) :
  Py.truediv_float_len x (List.length (b ++ [v])) =
  Returns (PrimFloat.div x (Py.float_of_len (List.length (b ++ [v])))).
Proof.
  rewrite length_app. simpl List.length.
  replace (List.length b + 1)%nat with (S (List.length b)) by lia.
  reflexivity.
Qed.

(** ** The two branches of [update_time], in closed form *)

Ltac run_monad :=
  unfold bind, get, modify, lift, ret, raise, buffer_pop0, buffer_append; simpl.

Lemma update_time_without_step (name : Stats) (s e : float) (bs : option Z)
    (self : StatsTracker) :
  tracked name self = true ->
  update_time name s e None bs self =
  match derived_value s e bs with
  | Raises err => (entered name None self, Raises err)
  | Returns val =>
      let self' :=
        with_stats_dict (dict_set name (Scalar val) self.(stats_dict))
                        (entered name None self) in
      if Stats_beq name ITER_TRAIN_TIME && tracked ETA self
      then (self', Raises TypeError)
      else (self', Returns tt)
  end.
Proof.
  intro Ht. unfold update_time, derived_value. run_monad. rewrite Ht.
  destruct (truthy bs) as [n|]; simpl.
  - destruct (Py.truediv_int_float n (Py.sub e s)) as [val|err]; simpl;
      [|reflexivity].
    unfold tracked at 1; simpl. fold (tracked ETA self).
    destruct (Stats_beq name ITER_TRAIN_TIME && tracked ETA self); reflexivity.
  - unfold tracked at 1; simpl. fold (tracked ETA self).
    destruct (Stats_beq name ITER_TRAIN_TIME && tracked ETA self); reflexivity.
Qed.

Lemma update_time_with_step (name : Stats) (s e : float) (st : Z)
    (bs : option Z) (self : StatsTracker) :
  tracked name self = true ->
  update_time name s e (Some st) bs self =
  match derived_value s e bs with
  | Raises err => (entered name (Some st) self, Raises err)
  | Returns val =>
      match dict_get name self.(stats_dict) with
      | Some (Scalar _) => (entered name (Some st) self, Raises TypeError)
      | found =>
          let buf := buffer_of found in
          if (self.(max_history) <=? Z.of_nat (List.length buf))
             && (Nat.eqb (List.length buf) 0)
          then (entered name (Some st) self, Raises IndexError)
          else
            let buf' := pushed self.(max_history) buf val in
            let d' := dict_set name (Averaged buf' (arithmetic_mean buf'))
                               self.(stats_dict) in
            if Stats_beq name ITER_TRAIN_TIME && tracked ETA self then
              match Py.mul_int_float (self.(config).(max_num_iterations) - st)
                                     (arithmetic_mean buf') with
              | Returns eta =>
                  (with_stats_dict (dict_set ETA (Scalar eta) d')
                                   (entered name (Some st) self), Returns tt)
              | Raises err =>
                  (with_stats_dict d' (entered name (Some st) self), Raises err)
              end
            else (with_stats_dict d' (entered name (Some st) self), Returns tt)
      end
  end.
Proof.
  intro Ht. unfold update_time, derived_value. run_monad. rewrite Ht.
  destruct (truthy bs) as [n|]; simpl;
    [destruct (Py.truediv_int_float n (Py.sub e s)) as [val|err]; simpl;
       [|reflexivity] | set (val := Py.sub e s)].
  all: destruct (dict_get name (stats_dict self)) as [[v|buf avg]|] eqn:Hget;
    simpl; [reflexivity| |].
  all: unfold pushed, arithmetic_mean, entered, buffer_of; simpl.
  all: match goal with
       | |- context [max_history ?t <=? ?n] =>
           destruct (max_history t <=? n) eqn:Hfull
       end; simpl; try reflexivity.
  all: try (destruct buf as [|oldest rest]; [reflexivity|]); run_monad.
  all: rewrite ?truediv_float_len_snoc; simpl.
  all: rewrite ?dict_set_alias.
  all: unfold tracked at 1; simpl; fold (tracked ETA self).
  all: destruct (Stats_beq name ITER_TRAIN_TIME && tracked ETA self);
    [|reflexivity].
  all: rewrite dict_get_set_same.
  all: match goal with
       | |- context [Py.mul_int_float ?a ?b] =>
           destruct (Py.mul_int_float a b); reflexivity
       end.
Qed.

Lemma update_value_tracked (name : Stats) (value : float) (st : Z)
    (self : StatsTracker) :
  tracked name self = true ->
  update_value name value st self =
  (with_stats_dict (dict_set name (Scalar value) self.(stats_dict))
                   (entered name (Some st) self), Returns tt).
Proof. intro Ht. unfold update_value. run_monad. now rewrite Ht. Qed.

Lemma update_value_untracked (name : Stats) (value : float) (st : Z)
    (self : StatsTracker) :
  tracked name self = false ->
  update_value name value st self = (self, Returns tt).
Proof. intro Ht. unfold update_value. run_monad. now rewrite Ht. Qed.

Lemma update_time_untracked (name : Stats) (s e : float) (st bs : option Z)
    (self : StatsTracker) :
  tracked name self = false ->
  update_time name s e st bs self = (self, Returns tt).
Proof. intro Ht. unfold update_time. run_monad. now rewrite Ht. Qed.

(** ** The display methods write nothing to the tracker *)

Lemma handle_stats_state (fmt : Formatting) (fraction_done : float)
    (self : StatsTracker) :
  fst (handle_stats fmt fraction_done self) = self.
Proof.
  unfold handle_stats, step_positive. run_monad.
  destruct (step self) as [st|] eqn:Hstep; simpl; [|reflexivity].
  destruct (0 <? st); simpl; [|reflexivity].
  rewrite Hstep.
  destruct (Py.str_int st) as [step_text|err]; simpl; [|reflexivity].
  destruct (stats_row fmt (stats_dict self) _); reflexivity.
Qed.

Lemma handle_header_state (self : StatsTracker) :
  fst (handle_header self) = self.
Proof.
  unfold handle_header, step_positive. run_monad.
  destruct (step_is_zero self || new_key self); [|reflexivity].
  destruct (step self) as [st|] eqn:Hstep; simpl; [|reflexivity].
  destruct (0 <? st); simpl;
    [destruct (cursorup _); simpl|]; rewrite ?Hstep; reflexivity.
Qed.

Lemma example_tracker_is_init : init example_config = Returns (Enabled example_tracker).
Proof. reflexivity. Qed.

(** The unit a key is displayed in, read off its label as [handle_stats]
    does: [(time)] for the two durations, [(ms)] for the two timings. *)
Lemma Stats_value_units (k : Stats) :
  Py.contains "(time)" (Stats_value k)
  = match k with TOTAL_TRAIN_TIME | ETA => true | _ => false end /\
  Py.contains "(ms)" (Stats_value k)
  = match k with ITER_LOAD_TIME | ITER_TRAIN_TIME => true | _ => false end.
Proof. destruct k; split; reflexivity. Qed.

(** ** Untracked keys *)

(** C3.  A key outside [stats_to_track] makes [update_value] and
    [update_time] return at once: the tracker (dictionary, step counter,
    new-key flag and all the rest) is the one the call received and nothing
    is raised. *)
Theorem untracked_key_is_noop (name : Stats) (self : StatsTracker) :
  tracked name self = false ->
  (forall value st, update_value name value st self = (self, Returns tt)) /\
  (forall s e st bs, update_time name s e st bs self = (self, Returns tt)).
Proof.
  intro Ht. split; intros.
  - now apply update_value_untracked.
  - now apply update_time_untracked.
Qed.

Lemma untracked_key_is_noop_witness :
  tracked CURR_TEST_PSNR example_tracker = false /\
  update_value CURR_TEST_PSNR 31.5 7 example_tracker = (example_tracker, Returns tt) /\
  update_time CURR_TEST_PSNR 1 1 (Some 7) (Some 4096) example_tracker
  = (example_tracker, Returns tt).
Proof.
  split; [reflexivity|].
  split; apply (untracked_key_is_noop CURR_TEST_PSNR example_tracker); reflexivity.
Defined.

(** ** Throughput and zero durations *)

Lemma truthy_nonzero (n : Z) : n <> 0 -> truthy (Some n) = Some n.
Proof. destruct n; simpl; congruence. Qed.

(** C8.  On a tracked key, [update_time] with [start_time = 0.0],
    [end_time = 2.0], [batch_size = 100] and no step stores the float [50.0]
    under the key; in general, with a batch size (other than [0], which
    Python takes for absent) and no step, it stores the batch size divided
    by [end_time - start_time]. *)
Theorem throughput_without_step (name : Stats) (self : StatsTracker) :
  tracked name self = true ->
  dict_get name (stats_dict (fst (update_time name 0 2 None (Some 100) self)))
  = Some (Scalar 50) /\
  forall s e n q,
    n <> 0 ->
    Py.truediv_int_float n (Py.sub e s) = Returns q ->
    dict_get name (stats_dict (fst (update_time name s e None (Some n) self)))
    = Some (Scalar q).
Proof.
  intro Ht.
  assert (Hgen : forall s e n q,
    n <> 0 ->
    Py.truediv_int_float n (Py.sub e s) = Returns q ->
    dict_get name (stats_dict (fst (update_time name s e None (Some n) self)))
    = Some (Scalar q)).
  { intros s e n q Hn Hq.
    rewrite update_time_without_step by assumption.
    unfold derived_value. rewrite truthy_nonzero by assumption. rewrite Hq.
    cbv zeta.
    destruct (Stats_beq name ITER_TRAIN_TIME && tracked ETA self); simpl;
      apply dict_get_set_same. }
  split; [|exact Hgen].
  apply Hgen; [discriminate | reflexivity].
Qed.

Lemma throughput_without_step_witness :
  tracked RAYS_PER_SEC example_tracker = true /\
  update_time RAYS_PER_SEC 0 2 None (Some 100) example_tracker
  = (mkStatsTracker example_config 2 None [(RAYS_PER_SEC, Scalar 50)] [] true
                    [ITER_TRAIN_TIME; ETA; RAYS_PER_SEC], Returns tt) /\
  dict_get RAYS_PER_SEC
    (stats_dict (fst (update_time RAYS_PER_SEC 0 2 None (Some 100) example_tracker)))
  = Some (Scalar 50).
Proof.
  split; [reflexivity|]. split; [reflexivity|].
  exact (proj1 (throughput_without_step RAYS_PER_SEC example_tracker eq_refl)).
Defined.

(** C9.  On a tracked key, with a positive batch size and
    [end_time - start_time] equal to zero, [update_time] raises: nothing
    guards the division.  The error is an [ArithmeticError], the
    [ZeroDivisionError] of the division for every batch size a float can
    hold, and the dictionary is left as it was: no value is stored. *)
Theorem zero_duration_raises (name : Stats) (s e : float) (st : option Z)
    (n : Z) (self : StatsTracker) :
  tracked name self = true ->
  0 < n ->
  PrimFloat.eqb (Py.sub e s) PrimFloat.zero = true ->
  exists err,
    snd (update_time name s e st (Some n) self) = Raises err /\
    is_ArithmeticError err = true /\
    (forall a, Py.float_of_int n = Returns a -> err = ZeroDivisionError) /\
    stats_dict (fst (update_time name s e st (Some n) self)) = stats_dict self.
Proof.
  intros Ht Hn Hz.
  assert (Hd : exists err,
            derived_value s e (Some n) = Raises err /\
            is_ArithmeticError err = true /\
            (forall a, Py.float_of_int n = Returns a -> err = ZeroDivisionError)).
  { unfold derived_value. rewrite truthy_nonzero by lia.
    unfold Py.truediv_int_float, Py.float_of_int. rewrite Hz.
    destruct (PrimFloat.is_infinity _).
    - exists OverflowError.
      split; [reflexivity|]. split; [reflexivity | discriminate].
    - exists ZeroDivisionError.
      split; [reflexivity|]. split; reflexivity. }
  destruct Hd as (err & Hd & Harith & Hzero).
  exists err.
  destruct st as [st|].
  - rewrite update_time_with_step by assumption. rewrite Hd. simpl. auto.
  - rewrite update_time_without_step by assumption. rewrite Hd. simpl. auto.
Qed.

Lemma zero_duration_raises_witness :
  tracked RAYS_PER_SEC example_tracker = true /\
  update_time RAYS_PER_SEC 3.5 3.5 (Some 4) (Some 4096) example_tracker
  = (mkStatsTracker example_config 2 (Some 4) [] [] true
                    [ITER_TRAIN_TIME; ETA; RAYS_PER_SEC], Raises ZeroDivisionError) /\
  exists err,
    snd (update_time RAYS_PER_SEC 3.5 3.5 (Some 4) (Some 4096) example_tracker)
    = Raises err /\
    is_ArithmeticError err = true /\
    (forall a, Py.float_of_int 4096 = Returns a -> err = ZeroDivisionError) /\
    stats_dict (fst (update_time RAYS_PER_SEC 3.5 3.5 (Some 4) (Some 4096)
                                 example_tracker))
    = stats_dict example_tracker.
Proof.
  split; [reflexivity|]. split; [reflexivity|].
  apply (zero_duration_raises RAYS_PER_SEC 3.5 3.5 (Some 4) 4096 example_tracker);
    [reflexivity | lia | reflexivity].
Defined.

(** ** An absent step *)

(** C10.  On a tracked key, [update_time] without a step leaves [None] in
    the step counter (and, when it returns, the derived float under the
    key); [handle_stats], and [print_stats] through it, then compares
    [None > 0] and raises a [TypeError] where a step of [0] would have
    printed nothing. *)
Theorem absent_step_breaks_print_stats (fmt : Formatting) (name : Stats)
    (s e fraction_done : float) (bs : option Z) (self : StatsTracker) :
  tracked name self = true ->
  let self' := fst (update_time name s e None bs self) in
  step self' = None /\
  (snd (update_time name s e None bs self) = Returns tt ->
   exists v, dict_get name (stats_dict self') = Some (Scalar v)) /\
  handle_stats fmt fraction_done self' = (self', Raises TypeError) /\
  print_stats fmt fraction_done self' = (self', Raises TypeError) /\
  print_stats fmt fraction_done (with_step (Some 0) self')
  = (with_step (Some 0) self', Returns EmptyString).
Proof.
  intros Ht self'.
  assert (Hstep : step self' = None).
  { unfold self'. rewrite update_time_without_step by assumption.
    destruct (derived_value s e bs); cbv zeta;
      [destruct (Stats_beq name ITER_TRAIN_TIME && tracked ETA self)|];
      reflexivity. }
  assert (Hraise : handle_stats fmt fraction_done self' = (self', Raises TypeError)).
  { unfold handle_stats, step_positive. run_monad. now rewrite Hstep. }
  repeat split; try assumption.
  unfold self'. rewrite update_time_without_step by assumption.
  destruct (derived_value s e bs) as [v|err]; cbv zeta; [|discriminate].
  intros _. exists v.
  destruct (Stats_beq name ITER_TRAIN_TIME && tracked ETA self); simpl;
    apply dict_get_set_same.
Qed.

Lemma absent_step_breaks_print_stats_witness :
  tracked TOTAL_TRAIN_TIME
    (mkStatsTracker example_config 2 (Some 0) [] [] false [TOTAL_TRAIN_TIME]) = true /\
  let self' :=
    fst (update_time TOTAL_TRAIN_TIME 10 25.5 None None
           (mkStatsTracker example_config 2 (Some 0) [] [] false [TOTAL_TRAIN_TIME])) in
  step self' = None /\
  (snd (update_time TOTAL_TRAIN_TIME 10 25.5 None None
           (mkStatsTracker example_config 2 (Some 0) [] [] false [TOTAL_TRAIN_TIME]))
   = Returns tt ->
   exists v, dict_get TOTAL_TRAIN_TIME (stats_dict self') = Some (Scalar v)) /\
  handle_stats example_formatting 0.5 self' = (self', Raises TypeError) /\
  print_stats example_formatting 0.5 self' = (self', Raises TypeError) /\
  print_stats example_formatting 0.5 (with_step (Some 0) self')
  = (with_step (Some 0) self', Returns EmptyString).
Proof.
  split; [reflexivity|].
  apply (absent_step_breaks_print_stats example_formatting TOTAL_TRAIN_TIME
           10 25.5 0.5 None
           (mkStatsTracker example_config 2 (Some 0) [] [] false [TOTAL_TRAIN_TIME])).
  reflexivity.
Defined.

(** ** What a call leaves of the tracker *)

(** An ingestion call on a tracked key writes the step, the flag and the
    dictionary, and nothing else. *)
Lemma update_time_shape (name : Stats) (s e : float) (st bs : option Z)
    (self : StatsTracker) :
  tracked name self = true ->
  exists d,
    fst (update_time name s e st bs self)
    = with_stats_dict d (entered name st self).
Proof.
  intro Ht. destruct st as [st|].
  - rewrite update_time_with_step by assumption.
    destruct (derived_value s e bs) as [val|err];
      [|now exists (stats_dict self)].
    destruct (dict_get name (stats_dict self)) as [[v|buf avg]|];
      [now exists (stats_dict self)| |]; cbv zeta.
    all: destruct (_ && (_ =? 0)%nat); [now exists (stats_dict self)|].
    all: destruct (Stats_beq name ITER_TRAIN_TIME && tracked ETA self);
      [destruct (Py.mul_int_float _ _)|]; simpl; eexists; reflexivity.
  - rewrite update_time_without_step by assumption.
    destruct (derived_value s e bs) as [val|err];
      [|now exists (stats_dict self)]; cbv zeta.
    destruct (Stats_beq name ITER_TRAIN_TIME && tracked ETA self); simpl;
      eexists; reflexivity.
Qed.

Lemma exec_frame (fmt : Formatting) (c : call) (self : StatsTracker) :
  stats_to_track (exec fmt c self) = stats_to_track self /\
  max_history (exec fmt c self) = max_history self /\
  config (exec fmt c self) = config self.
Proof.
  destruct c as [name value st | name s e st bs | fd]; simpl.
  - destruct (tracked name self) eqn:Ht.
    + rewrite update_value_tracked by assumption. now simpl.
    + rewrite update_value_untracked by assumption. now simpl.
  - destruct (tracked name self) eqn:Ht.
    + destruct (update_time_shape name s e st bs self Ht) as [d Hd].
      rewrite Hd. now simpl.
    + rewrite update_time_untracked by assumption. now simpl.
  - unfold print_stats. rewrite handle_stats_state. auto.
Qed.

Lemma run_snoc (fmt : Formatting) (calls : list call) (c : call)
    (self : StatsTracker) :
  run fmt (calls ++ [c]) self = exec fmt c (run fmt calls self).
Proof. unfold run. now rewrite fold_left_app. Qed.

Lemma run_frame (fmt : Formatting) (calls : list call) (self : StatsTracker) :
  stats_to_track (run fmt calls self) = stats_to_track self /\
  max_history (run fmt calls self) = max_history self /\
  config (run fmt calls self) = config self.
Proof.
  induction calls as [|c calls IH] using rev_ind; [now simpl|].
  rewrite run_snoc.
  destruct (exec_frame fmt c (run fmt calls self)) as (H1 & H2 & H3).
  destruct IH as (I1 & I2 & I3).
  repeat split; congruence.
Qed.

Lemma run_tracked (fmt : Formatting) (calls : list call) (k : Stats)
    (self : StatsTracker) :
  tracked k (run fmt calls self) = tracked k self.
Proof. unfold tracked. now destruct (run_frame fmt calls self) as (-> & _). Qed.

Lemma exec_step (fmt : Formatting) (c : call) (k : Stats) (self : StatsTracker) :
  call_name c = Some k ->
  tracked k self = true ->
  step (exec fmt c self) = call_step c.
Proof.
  destruct c as [name value st | name s e st bs | fd]; simpl;
    intros Hk Ht; [| |discriminate]; injection Hk as ->.
  - now rewrite update_value_tracked.
  - destruct (update_time_shape k s e st bs self Ht) as [d Hd].
    now rewrite Hd.
Qed.

(** ** The step counter *)

(** C7, as the code has it.  After an ingestion call on a tracked key the
    step counter holds the step that call supplied ([None] when
    [update_time] was given none), whatever came before; from one such call
    to the next the counter does not decrease exactly when the supplied
    steps do not. *)
Theorem step_counter_follows_last_call (fmt : Formatting) (calls : list call)
    (c : call) (k : Stats) (self : StatsTracker) :
  call_name c = Some k ->
  tracked k self = true ->
  step (run fmt (calls ++ [c]) self) = call_step c /\
  forall c' k',
    call_name c' = Some k' ->
    tracked k' self = true ->
    (step_le (step (run fmt (calls ++ [c]) self))
             (step (run fmt ((calls ++ [c]) ++ [c']) self))
     <-> step_le (call_step c) (call_step c')).
Proof.
  intros Hk Ht.
  assert (Hlast : forall cs c0 k0, call_name c0 = Some k0 -> tracked k0 self = true ->
                  step (run fmt (cs ++ [c0]) self) = call_step c0).
  { intros cs c0 k0 Hk0 Ht0. rewrite run_snoc.
    apply (exec_step fmt c0 k0); [assumption|]. now rewrite run_tracked. }
  split; [now apply (Hlast calls c k)|].
  intros c' k' Hk' Ht'.
  rewrite (Hlast calls c k), (Hlast (calls ++ [c]) c' k') by assumption.
  reflexivity.
Qed.

Lemma step_counter_follows_last_call_witness :
  call_name (UpdateValue RAYS_PER_SEC 1 3) = Some RAYS_PER_SEC /\
  tracked RAYS_PER_SEC example_tracker = true /\
  step (run example_formatting
            ([UpdateValue RAYS_PER_SEC 1 5] ++ [UpdateValue RAYS_PER_SEC 1 3])
            example_tracker)
  = Some 3.
Proof.
  split; [reflexivity|]. split; [reflexivity|].
  exact (proj1 (step_counter_follows_last_call example_formatting
                  [UpdateValue RAYS_PER_SEC 1 5] (UpdateValue RAYS_PER_SEC 1 3)
                  RAYS_PER_SEC example_tracker eq_refl eq_refl)).
Defined.

(** C7 as stated fails: two calls on a tracked key, the first with step 5
    and the second with step 3, take the counter from 5 back to 3. *)
Lemma step_counter_can_decrease :
  tracked RAYS_PER_SEC example_tracker = true /\
  step (run example_formatting [UpdateValue RAYS_PER_SEC 1 5] example_tracker)
  = Some 5 /\
  step (run example_formatting
            [UpdateValue RAYS_PER_SEC 1 5; UpdateValue RAYS_PER_SEC 1 3]
            example_tracker)
  = Some 3 /\
  ~ step_le
      (step (run example_formatting [UpdateValue RAYS_PER_SEC 1 5] example_tracker))
      (step (run example_formatting
                 [UpdateValue RAYS_PER_SEC 1 5; UpdateValue RAYS_PER_SEC 1 3]
                 example_tracker)).
Proof.
  split; [reflexivity|]. split; [reflexivity|]. split; [reflexivity|].
  simpl. lia.
Qed.

(** ** The ETA entry *)

(** C4.  When [update_time] on [ITER_TRAIN_TIME], with a step and with
    [ETA] tracked, returns, [ITER_TRAIN_TIME] holds a buffer and its
    average, and [ETA] holds [(max_num_iterations - step)] times that
    average; with [max_num_iterations = 1000], an average of [0.5] and
    [step = 400] this is [300.0]. *)
Theorem eta_is_remaining_times_average (s e : float) (st : Z) (bs : option Z)
    (self self' : StatsTracker) :
  tracked ITER_TRAIN_TIME self = true ->
  tracked ETA self = true ->
  update_time ITER_TRAIN_TIME s e (Some st) bs self = (self', Returns tt) ->
  exists buf avg eta,
    dict_get ITER_TRAIN_TIME (stats_dict self') = Some (Averaged buf avg) /\
    Py.mul_int_float (max_num_iterations (config self) - st) avg = Returns eta /\
    dict_get ETA (stats_dict self') = Some (Scalar eta) /\
    (max_num_iterations (config self) = 1000 -> st = 400 -> avg = 0.5%float ->
     eta = 300%float).
Proof.
  intros Ht Heta Hrun.
  rewrite update_time_with_step in Hrun by assumption.
  destruct (derived_value s e bs) as [val|err]; [|discriminate].
  set (buf := buffer_of (dict_get ITER_TRAIN_TIME (stats_dict self))) in *.
  set (buf' := pushed (max_history self) buf val) in *.
  assert (Hcase :
    (if (max_history self <=? Z.of_nat (List.length buf)) && (List.length buf =? 0)%nat
     then (entered ITER_TRAIN_TIME (Some st) self, Raises IndexError)
     else
       match Py.mul_int_float (max_num_iterations (config self) - st)
                              (arithmetic_mean buf') with
       | Returns eta =>
           (with_stats_dict
              (dict_set ETA (Scalar eta)
                 (dict_set ITER_TRAIN_TIME (Averaged buf' (arithmetic_mean buf'))
                           (stats_dict self)))
              (entered ITER_TRAIN_TIME (Some st) self), Returns tt)
       | Raises err =>
           (with_stats_dict
              (dict_set ITER_TRAIN_TIME (Averaged buf' (arithmetic_mean buf'))
                        (stats_dict self))
              (entered ITER_TRAIN_TIME (Some st) self), Raises err)
       end) = (self', Returns tt)).
  { rewrite Heta in Hrun. simpl andb in Hrun. cbv zeta in Hrun.
    destruct (dict_get ITER_TRAIN_TIME (stats_dict self)) as [[v|b a]|];
      [discriminate| |]; exact Hrun. }
  clear Hrun.
  destruct (_ && (_ =? 0)%nat); [discriminate|].
  destruct (Py.mul_int_float _ _) as [eta|err] eqn:Hmul; [|discriminate].
  injection Hcase as <-.
  exists buf', (arithmetic_mean buf'), eta. simpl.
  split.
  { rewrite dict_get_set_other by discriminate. apply dict_get_set_same. }
  split; [exact Hmul|].
  split; [apply dict_get_set_same|].
  intros Hmax Hst Havg. rewrite Hmax, Hst, Havg in Hmul.
  vm_compute in Hmul. congruence.
Qed.

Lemma eta_is_remaining_times_average_witness :
  tracked ITER_TRAIN_TIME example_tracker = true /\
  tracked ETA example_tracker = true /\
  update_time ITER_TRAIN_TIME 0 0.5 (Some 400) None example_tracker
  = (mkStatsTracker example_config 2 (Some 400)
       [(ITER_TRAIN_TIME, Averaged [0.5%float] 0.5); (ETA, Scalar 300)]
       [] true [ITER_TRAIN_TIME; ETA; RAYS_PER_SEC], Returns tt) /\
  exists buf avg eta,
    dict_get ITER_TRAIN_TIME
      [(ITER_TRAIN_TIME, Averaged [0.5%float] 0.5); (ETA, Scalar 300)]
    = Some (Averaged buf avg) /\
    Py.mul_int_float (1000 - 400) avg = Returns eta /\
    dict_get ETA [(ITER_TRAIN_TIME, Averaged [0.5%float] 0.5); (ETA, Scalar 300)]
    = Some (Scalar eta) /\
    (1000 = 1000 -> 400 = 400 -> avg = 0.5%float -> eta = 300%float).
Proof.
  split; [reflexivity|]. split; [reflexivity|]. split; [reflexivity|].
  exact (eta_is_remaining_times_average 0 0.5 400 None example_tracker
           (mkStatsTracker example_config 2 (Some 400)
              [(ITER_TRAIN_TIME, Averaged [0.5%float] 0.5); (ETA, Scalar 300)]
              [] true [ITER_TRAIN_TIME; ETA; RAYS_PER_SEC])
           eq_refl eq_refl eq_refl).
Defined.

(** C5, as the code has it.  [update_value] on a key other than [ETA],
    [update_time] on a key other than [ETA] and [ITER_TRAIN_TIME], and the
    display methods leave the [ETA] entry as it is.  (A call that names
    [ETA] itself writes the entry like any other key.) *)
Theorem eta_untouched_by_other_keys (fmt : Formatting) (self : StatsTracker) :
  (forall name value st,
     name <> ETA ->
     dict_get ETA (stats_dict (fst (update_value name value st self)))
     = dict_get ETA (stats_dict self)) /\
  (forall name s e st bs,
     name <> ETA -> name <> ITER_TRAIN_TIME ->
     dict_get ETA (stats_dict (fst (update_time name s e st bs self)))
     = dict_get ETA (stats_dict self)) /\
  (forall fraction_done,
     stats_dict (fst (print_stats fmt fraction_done self)) = stats_dict self).
Proof.
  split; [|split].
  - intros name value st Hne.
    destruct (tracked name self) eqn:Ht.
    + rewrite update_value_tracked by assumption. simpl.
      apply dict_get_set_other. congruence.
    + now rewrite update_value_untracked.
  - intros name s e st bs Hne Hiter.
    destruct (tracked name self) eqn:Ht;
      [|now rewrite update_time_untracked].
    assert (Hset : forall x, dict_get ETA (dict_set name x (stats_dict self))
                             = dict_get ETA (stats_dict self)).
    { intro x. apply dict_get_set_other. congruence. }
    destruct st as [st|].
    + rewrite update_time_with_step by assumption.
      rewrite (Stats_beq_neq name ITER_TRAIN_TIME) by assumption.
      destruct (derived_value s e bs) as [val|err]; [|reflexivity].
      destruct (dict_get name (stats_dict self)) as [[v|buf avg]|];
        [reflexivity| |]; cbv zeta.
      all: destruct (_ && (_ =? 0)%nat); [reflexivity|]; simpl; apply Hset.
    + rewrite update_time_without_step by assumption.
      rewrite (Stats_beq_neq name ITER_TRAIN_TIME) by assumption.
      destruct (derived_value s e bs) as [val|err]; [|reflexivity].
      simpl. apply Hset.
  - intro fd. unfold print_stats. now rewrite handle_stats_state.
Qed.

Lemma eta_untouched_by_other_keys_witness :
  RAYS_PER_SEC <> ETA /\ RAYS_PER_SEC <> ITER_TRAIN_TIME /\
  dict_get ETA
    (stats_dict (fst (update_time RAYS_PER_SEC 0 2 (Some 1) (Some 100)
                        (fst (update_time ITER_TRAIN_TIME 0 0.5 (Some 400) None
                                          example_tracker)))))
  = dict_get ETA
      (stats_dict (fst (update_time ITER_TRAIN_TIME 0 0.5 (Some 400) None
                                    example_tracker))).
Proof.
  split; [discriminate|]. split; [discriminate|].
  apply (proj1 (proj2 (eta_untouched_by_other_keys example_formatting
           (fst (update_time ITER_TRAIN_TIME 0 0.5 (Some 400) None example_tracker)))));
    discriminate.
Defined.

(** C5 as stated fails: with [ETA] tracked, [update_value] called on [ETA]
    writes the [ETA] entry, and no update of [ITER_TRAIN_TIME] is involved. *)
Lemma eta_written_by_update_value :
  tracked ETA example_tracker = true /\
  dict_get ETA (stats_dict example_tracker) = None /\
  update_value ETA 42 1 example_tracker
  = (mkStatsTracker example_config 2 (Some 1) [(ETA, Scalar 42)] [] true
                    [ITER_TRAIN_TIME; ETA; RAYS_PER_SEC], Returns tt) /\
  dict_get ETA (stats_dict (fst (update_value ETA 42 1 example_tracker)))
  <> dict_get ETA (stats_dict example_tracker).
Proof.
  split; [reflexivity|]. split; [reflexivity|]. split; [reflexivity|].
  simpl. discriminate.
Qed.

(** ** The new-key flag *)

(** C6, as the code has it.  An ingestion call on a tracked key sets the
    flag when the key is not in the dictionary and leaves the flag as it was
    when the key is there; a call on an untracked key leaves it too.  No
    method clears the flag: [print_stats], [handle_stats] and
    [handle_header] hand back the tracker they received. *)
Theorem new_key_set_on_absent_key_never_cleared (fmt : Formatting)
    (name : Stats) (self : StatsTracker) :
  (tracked name self = true ->
   forall c, call_name c = Some name ->
     new_key (exec fmt c self)
     = (negb (dict_mem name (stats_dict self)) || new_key self)%bool) /\
  (tracked name self = false ->
   forall c, call_name c = Some name ->
     new_key (exec fmt c self) = new_key self) /\
  (forall fraction_done,
     fst (print_stats fmt fraction_done self) = self /\
     fst (handle_stats fmt fraction_done self) = self) /\
  fst (handle_header self) = self.
Proof.
  split; [|split; [|split]].
  - intros Ht c Hc.
    destruct c as [n value st | n s e st bs | fd]; simpl in *;
      [| |discriminate]; injection Hc as ->.
    + now rewrite update_value_tracked.
    + destruct (update_time_shape name s e st bs self Ht) as [d Hd].
      now rewrite Hd.
  - intros Ht c Hc.
    destruct c as [n value st | n s e st bs | fd]; simpl in *;
      [| |discriminate]; injection Hc as ->.
    + now rewrite update_value_untracked.
    + now rewrite update_time_untracked.
  - intro fd. unfold print_stats. now rewrite handle_stats_state.
  - apply handle_header_state.
Qed.

Lemma new_key_set_on_absent_key_never_cleared_witness :
  tracked RAYS_PER_SEC example_tracker = true /\
  call_name (UpdateValue RAYS_PER_SEC 1 5) = Some RAYS_PER_SEC /\
  new_key (exec example_formatting (UpdateValue RAYS_PER_SEC 1 5) example_tracker)
  = (negb (dict_mem RAYS_PER_SEC (stats_dict example_tracker))
     || new_key example_tracker)%bool.
Proof.
  split; [reflexivity|]. split; [reflexivity|].
  exact (proj1 (new_key_set_on_absent_key_never_cleared example_formatting
                  RAYS_PER_SEC example_tracker)
               eq_refl (UpdateValue RAYS_PER_SEC 1 5) eq_refl).
Defined.

(** C6 as stated fails: the flag set by the first update of a key is still
    set after a [print_stats] that returned. *)
Lemma new_key_survives_print_stats :
  new_key example_tracker = false /\
  new_key (fst (update_value RAYS_PER_SEC 1 5 example_tracker)) = true /\
  snd (print_stats example_formatting 0.5
         (fst (update_value RAYS_PER_SEC 1 5 example_tracker)))
  = Returns (print_line (Py.ljust 20 "5 (0.00%)" ++ Py.ljust 20 "0.0000" ++ " ")) /\
  new_key (fst (print_stats example_formatting 0.5
                  (fst (update_value RAYS_PER_SEC 1 5 example_tracker))))
  = true.
Proof. repeat split. Qed.

(** ** Windows of a list *)

Lemma tl_skipn {A : Type} (k : nat) (l : list A) :
  tl (skipn k l) = skipn (S k) l.
Proof.
  revert l. induction k as [|k IH]; intros [|x l]; try reflexivity.
  change (skipn (S k) (x :: l)) with (skipn k l).
  rewrite IH. reflexivity.
Qed.

Lemma lastn_length {A : Type} (n : nat) (l : list A) :
  List.length (lastn n l) = Nat.min n (List.length l).
Proof. unfold lastn. rewrite length_skipn. lia. Qed.

Lemma lastn_short {A : Type} (n : nat) (l : list A) :
  (List.length l <= n)%nat -> lastn n l = l.
Proof.
  intro H. unfold lastn.
  replace (List.length l - n)%nat with 0%nat by lia. reflexivity.
Qed.

(** Inserting into the window of the last [cap] values gives the window of
    the values with the new one. *)
Lemma pushed_lastn (cap : Z) (vals : list float) (val : float) :
  1 <= cap ->
  pushed cap (lastn (Z.to_nat cap) vals) val
  = lastn (Z.to_nat cap) (vals ++ [val]).
Proof.
  intro Hcap. unfold pushed. rewrite lastn_length.
  destruct (cap <=? Z.of_nat (Nat.min (Z.to_nat cap) (List.length vals))) eqn:Hfull.
  - apply Z.leb_le in Hfull.
    assert (Hlen : (Z.to_nat cap <= List.length vals)%nat) by lia.
    unfold lastn. rewrite tl_skipn, length_app. simpl List.length.
    replace (List.length vals + 1 - Z.to_nat cap)%nat
      with (S (List.length vals - Z.to_nat cap)) by lia.
    rewrite skipn_app.
    replace (S (List.length vals - Z.to_nat cap) - List.length vals)%nat
      with 0%nat by lia.
    reflexivity.
  - apply Z.leb_gt in Hfull.
    assert (Hlen : (List.length vals < Z.to_nat cap)%nat) by lia.
    rewrite (lastn_short _ vals) by lia.
    rewrite lastn_short; [reflexivity|].
    rewrite length_app. simpl. lia.
Qed.

(** ** What [update_time] stores *)

(** With a step, on a tracked key whose entry is absent or a buffer, the
    call leaves under the key the buffer with the value inserted and the
    mean of that buffer, whatever the ETA part then does. *)
Lemma update_time_stored (name : Stats) (s e : float) (st : Z)
    (bs : option Z) (val : float) (self : StatsTracker) :
  tracked name self = true ->
  derived_value s e bs = Returns val ->
  (forall v, dict_get name (stats_dict self) <> Some (Scalar v)) ->
  buffer_of (dict_get name (stats_dict self)) <> [] \/ 1 <= max_history self ->
  let buf' := pushed (max_history self)
                     (buffer_of (dict_get name (stats_dict self))) val in
  dict_get name (stats_dict (fst (update_time name s e (Some st) bs self)))
  = Some (Averaged buf' (arithmetic_mean buf')).
Proof.
  intros Ht Hval Hscalar Hpop buf'.
  rewrite update_time_with_step by assumption. rewrite Hval.
  assert (Hguard :
    (max_history self <=? Z.of_nat (List.length (buffer_of (dict_get name (stats_dict self)))))
    && (List.length (buffer_of (dict_get name (stats_dict self))) =? 0)%nat = false).
  { destruct (buffer_of (dict_get name (stats_dict self))) as [|x l] eqn:Hbuf; simpl.
    - destruct Hpop as [Hpop|Hpop]; [congruence|].
      rewrite andb_true_r. apply Z.leb_gt. lia.
    - apply andb_false_r. }
  assert (Hend :
    dict_get name (stats_dict (fst
      (if (max_history self <=? Z.of_nat (List.length (buffer_of (dict_get name (stats_dict self)))))
          && (List.length (buffer_of (dict_get name (stats_dict self))) =? 0)%nat
       then (entered name (Some st) self, Raises IndexError)
       else
         if Stats_beq name ITER_TRAIN_TIME && tracked ETA self then
           match Py.mul_int_float (max_num_iterations (config self) - st)
                                  (arithmetic_mean buf') with
           | Returns eta =>
               (with_stats_dict
                  (dict_set ETA (Scalar eta)
                     (dict_set name (Averaged buf' (arithmetic_mean buf'))
                               (stats_dict self)))
                  (entered name (Some st) self), Returns tt)
           | Raises err =>
               (with_stats_dict
                  (dict_set name (Averaged buf' (arithmetic_mean buf'))
                            (stats_dict self))
                  (entered name (Some st) self), Raises err)
           end
         else (with_stats_dict
                 (dict_set name (Averaged buf' (arithmetic_mean buf'))
                           (stats_dict self))
                 (entered name (Some st) self), Returns tt))))
    = Some (Averaged buf' (arithmetic_mean buf'))).
  { rewrite Hguard.
    destruct (Stats_beq name ITER_TRAIN_TIME && tracked ETA self) eqn:Heta;
      [|simpl; apply dict_get_set_same].
    apply andb_prop in Heta. destruct Heta as [Hname _].
    apply Stats_beq_eq in Hname. subst name.
    destruct (Py.mul_int_float _ _); simpl.
    - rewrite dict_get_set_other by discriminate. apply dict_get_set_same.
    - apply dict_get_set_same. }
  destruct (dict_get name (stats_dict self)) as [[v|buf avg]|] eqn:Hget.
  - exfalso. now apply (Hscalar v).
  - exact Hend.
  - exact Hend.
Qed.

(** A call of [update_time] leaves the entries of the other keys, the
    [ETA] entry apart when the call is on [ITER_TRAIN_TIME]. *)
Lemma update_time_other_key (k name : Stats) (s e : float) (st bs : option Z)
    (self : StatsTracker) :
  k <> name ->
  (k = ETA -> name <> ITER_TRAIN_TIME) ->
  dict_get k (stats_dict (fst (update_time name s e st bs self)))
  = dict_get k (stats_dict self).
Proof.
  intros Hne Heta.
  destruct (tracked name self) eqn:Ht; [|now rewrite update_time_untracked].
  assert (Hset : forall x, dict_get k (dict_set name x (stats_dict self))
                           = dict_get k (stats_dict self)).
  { intro x. now apply dict_get_set_other. }
  assert (Hset2 : forall x y,
            Stats_beq name ITER_TRAIN_TIME && tracked ETA self = true ->
            dict_get k (dict_set ETA y (dict_set name x (stats_dict self)))
            = dict_get k (stats_dict self)).
  { intros x y Hb. apply andb_prop in Hb. destruct Hb as [Hb _].
    apply Stats_beq_eq in Hb.
    rewrite dict_get_set_other; [apply Hset|].
    intro Hk. now apply Heta. }
  destruct st as [st|].
  - rewrite update_time_with_step by assumption.
    destruct (derived_value s e bs) as [val|err]; [|reflexivity].
    destruct (dict_get name (stats_dict self)) as [[v|buf avg]|];
      [reflexivity| |]; cbv zeta.
    all: destruct (_ && (_ =? 0)%nat); [reflexivity|].
    all: destruct (Stats_beq name ITER_TRAIN_TIME && tracked ETA self) eqn:Hb;
      [destruct (Py.mul_int_float _ _); simpl; [now apply Hset2 | apply Hset]
      | simpl; apply Hset].
  - rewrite update_time_without_step by assumption.
    destruct (derived_value s e bs) as [val|err]; [|reflexivity]. cbv zeta.
    destruct (Stats_beq name ITER_TRAIN_TIME && tracked ETA self); simpl;
      apply Hset.
Qed.

(** ** Reachable trackers are well formed *)

Lemma dict_ok_set (keys : set Stats) (cap : Z) (k : Stats) (x : entry)
    (d : dict) :
  dict_ok keys cap d ->
  set_mem Stats_eq_dec k keys = true ->
  entry_ok cap x ->
  dict_ok keys cap (dict_set k x d).
Proof.
  intros Hd Hk Hx k' x' Hget.
  destruct (Stats_eq_dec k' k) as [->|Hne].
  - rewrite dict_get_set_same in Hget. injection Hget as <-. auto.
  - rewrite dict_get_set_other in Hget by assumption. now apply Hd.
Qed.

Lemma pushed_ok (cap : Z) (buf : list float) (val : float) :
  buf = [] \/ Z.of_nat (List.length buf) <= cap ->
  (cap <=? Z.of_nat (List.length buf)) && (List.length buf =? 0)%nat = false ->
  entry_ok cap (Averaged (pushed cap buf val) (arithmetic_mean (pushed cap buf val))).
Proof.
  intros Hbuf Hguard. unfold pushed. split.
  - intro H. now apply app_eq_nil in H.
  - rewrite length_app. simpl List.length.
    destruct (cap <=? Z.of_nat (List.length buf)) eqn:Hfull.
    + destruct buf as [|x l]; [discriminate|]. simpl in *.
      destruct Hbuf as [Hbuf|Hbuf]; [discriminate|]. lia.
    + apply Z.leb_gt in Hfull. lia.
Qed.

Lemma buffer_of_ok (keys : set Stats) (cap : Z) (k : Stats) (d : dict) :
  dict_ok keys cap d ->
  buffer_of (dict_get k d) = [] \/
  Z.of_nat (List.length (buffer_of (dict_get k d))) <= cap.
Proof.
  intro Hd. destruct (dict_get k d) as [[v|buf avg]|] eqn:Hget; simpl; auto.
  right. now destruct (Hd k _ Hget) as [_ [_ H]].
Qed.

Lemma exec_well_formed (fmt : Formatting) (c : call) (self : StatsTracker) :
  well_formed self -> well_formed (exec fmt c self).
Proof.
  unfold well_formed. intro Hwf.
  destruct c as [name value st | name s e st bs | fd]; simpl.
  - destruct (tracked name self) eqn:Ht.
    + rewrite update_value_tracked by assumption. simpl.
      now apply dict_ok_set.
    + now rewrite update_value_untracked.
  - destruct (tracked name self) eqn:Ht; [|now rewrite update_time_untracked].
    destruct st as [st|].
    + rewrite update_time_with_step by assumption.
      destruct (derived_value s e bs) as [val|err]; [|exact Hwf].
      pose proof (buffer_of_ok _ _ name _ Hwf) as Hbuf.
      assert (Hgoal :
        let buf := buffer_of (dict_get name (stats_dict self)) in
        let res :=
          if (max_history self <=? Z.of_nat (List.length buf))
             && (List.length buf =? 0)%nat
          then (entered name (Some st) self, @Raises unit IndexError)
          else
            let buf' := pushed (max_history self) buf val in
            let d' := dict_set name (Averaged buf' (arithmetic_mean buf'))
                               (stats_dict self) in
            if Stats_beq name ITER_TRAIN_TIME && tracked ETA self then
              match Py.mul_int_float (max_num_iterations (config self) - st)
                                     (arithmetic_mean buf') with
              | Returns eta =>
                  (with_stats_dict (dict_set ETA (Scalar eta) d')
                                   (entered name (Some st) self), Returns tt)
              | Raises err =>
                  (with_stats_dict d' (entered name (Some st) self), Raises err)
              end
            else (with_stats_dict d' (entered name (Some st) self), Returns tt) in
        dict_ok (stats_to_track (fst res)) (max_history (fst res))
                (stats_dict (fst res))).
      { cbv zeta.
        destruct (_ && (_ =? 0)%nat) eqn:Hguard; [exact Hwf|].
        pose proof (pushed_ok _ _ val Hbuf Hguard) as Hpush.
        destruct (Stats_beq name ITER_TRAIN_TIME && tracked ETA self) eqn:Heta.
        - apply andb_prop in Heta. destruct Heta as [_ Heta].
          destruct (Py.mul_int_float _ _); simpl.
          + apply dict_ok_set; [|exact Heta|exact I].
            now apply dict_ok_set.
          + now apply dict_ok_set.
        - simpl. now apply dict_ok_set. }
      cbv zeta in Hgoal.
      destruct (dict_get name (stats_dict self)) as [[v|buf avg]|];
        [exact Hwf | exact Hgoal | exact Hgoal].
    + rewrite update_time_without_step by assumption.
      destruct (derived_value s e bs) as [val|err]; [|exact Hwf]. cbv zeta.
      destruct (Stats_beq name ITER_TRAIN_TIME && tracked ETA self); simpl;
        now apply dict_ok_set.
  - unfold print_stats. now rewrite handle_stats_state.
Qed.

Lemma run_well_formed (fmt : Formatting) (calls : list call)
    (self : StatsTracker) :
  well_formed self -> well_formed (run fmt calls self).
Proof.
  revert self. induction calls as [|c calls IH]; intros self Hwf; [exact Hwf|].
  simpl. apply IH. now apply exec_well_formed.
Qed.

Lemma init_well_formed (cfg : Config) (self : StatsTracker) :
  init cfg = Returns (Enabled self) -> well_formed self.
Proof.
  unfold init. destruct (enable_stats cfg); [|discriminate].
  destruct (collect_stats _ _); [|discriminate].
  intro H. injection H as <-. intros k x Hget. discriminate.
Qed.

Lemma init_stats_dict (cfg : Config) (self : StatsTracker) :
  init cfg = Returns (Enabled self) -> stats_dict self = [].
Proof.
  unfold init. destruct (enable_stats cfg); [|discriminate].
  destruct (collect_stats _ _); [|discriminate].
  intro H. now injection H as <-.
Qed.

(** ** The buffer is bounded and first in, first out *)

(** C2.  In a tracker reached from [__init__] by any sequence of calls, a
    buffer under a key is never longer than [max_history]; when it holds
    exactly [max_history] elements, an insertion by [update_time] drops its
    oldest element, and only that one, and appends the new value, so the
    length stays at [max_history]. *)
Theorem buffer_bounded_and_fifo (fmt : Formatting) (cfg : Config)
    (self0 : StatsTracker) (calls : list call) (name : Stats)
    (buf : list float) (avg : float) :
  init cfg = Returns (Enabled self0) ->
  let self := run fmt calls self0 in
  dict_get name (stats_dict self) = Some (Averaged buf avg) ->
  Z.of_nat (List.length buf) <= max_history self /\
  (Z.of_nat (List.length buf) = max_history self ->
   forall s e st bs val,
     derived_value s e bs = Returns val ->
     exists oldest rest,
       buf = oldest :: rest /\
       dict_get name (stats_dict (fst (update_time name s e (Some st) bs self)))
       = Some (Averaged (rest ++ [val]) (arithmetic_mean (rest ++ [val]))) /\
       Z.of_nat (List.length (rest ++ [val])) = max_history self).
Proof.
  intros Hinit self Hget.
  assert (Hwf : well_formed self).
  { apply run_well_formed. now apply (init_well_formed cfg). }
  destruct (Hwf name _ Hget) as [Ht [Hne Hlen]].
  split; [exact Hlen|].
  intros Hfull s e st bs val Hval.
  destruct buf as [|oldest rest]; [congruence|].
  exists oldest, rest. split; [reflexivity|].
  assert (Hpush : pushed (max_history self) (oldest :: rest) val = rest ++ [val]).
  { unfold pushed. rewrite <- Hfull, Z.leb_refl. reflexivity. }
  split.
  - pose proof (update_time_stored name s e st bs val self Ht Hval) as Hst.
    rewrite Hget in Hst. simpl buffer_of in Hst. rewrite Hpush in Hst.
    apply Hst; [intros v; discriminate | left; discriminate].
  - rewrite <- Hfull, length_app. simpl. lia.
Qed.

Lemma buffer_bounded_and_fifo_witness :
  init example_config = Returns (Enabled example_tracker) /\
  dict_get RAYS_PER_SEC
    (stats_dict (run example_formatting
                   [UpdateTime RAYS_PER_SEC 0 1 (Some 1) None;
                    UpdateTime RAYS_PER_SEC 0 2 (Some 2) None] example_tracker))
  = Some (Averaged [1%float; 2%float] 1.5) /\
  Z.of_nat (List.length [1%float; 2%float])
  <= max_history (run example_formatting
                   [UpdateTime RAYS_PER_SEC 0 1 (Some 1) None;
                    UpdateTime RAYS_PER_SEC 0 2 (Some 2) None] example_tracker).
Proof.
  split; [reflexivity|]. split; [reflexivity|].
  exact (proj1 (buffer_bounded_and_fifo example_formatting example_config
                  example_tracker
                  [UpdateTime RAYS_PER_SEC 0 1 (Some 1) None;
                   UpdateTime RAYS_PER_SEC 0 2 (Some 2) None]
                  RAYS_PER_SEC [1%float; 2%float] 1.5%float eq_refl eq_refl)).
Defined.

(** ** The average is the mean of the window *)

Lemma recorded_values_snoc (name : Stats) (calls : list call) (c : call) :
  recorded_values name (calls ++ [c])
  = recorded_values name calls ++ recorded name c.
Proof.
  unfold recorded_values. rewrite flat_map_app. simpl. now rewrite app_nil_r.
Qed.

(** A call other than one on [ETA] changes the [ETA] entry exactly when it
    is one of the calls [writes_eta] picks out, and then to a plain float. *)
Lemma eta_after_other_call (n : Stats) (s e : float) (st bs : option Z)
    (self : StatsTracker) :
  n <> ETA ->
  if writes_eta (UpdateTime n s e st bs) self
  then exists y,
         dict_get ETA (stats_dict (fst (update_time n s e st bs self)))
         = Some (Scalar y)
  else dict_get ETA (stats_dict (fst (update_time n s e st bs self)))
       = dict_get ETA (stats_dict self).
Proof.
  intro Hne. unfold writes_eta.
  destruct (Stats_beq n ITER_TRAIN_TIME) eqn:Hn; simpl andb;
    [|apply update_time_other_key;
       [congruence | intros _ Hiter; now rewrite Hiter in Hn]].
  apply Stats_beq_eq in Hn. subst n.
  destruct (tracked ITER_TRAIN_TIME self) eqn:Ht; simpl andb;
    [|now rewrite update_time_untracked].
  assert (Hset : forall x, dict_get ETA (dict_set ITER_TRAIN_TIME x (stats_dict self))
                           = dict_get ETA (stats_dict self)).
  { intro x. now apply dict_get_set_other. }
  destruct st as [st|].
  - rewrite update_time_with_step by assumption. simpl Stats_beq. simpl andb.
    destruct (derived_value s e bs) as [val|err];
      [|destruct (tracked ETA self); reflexivity].
    destruct (dict_get ITER_TRAIN_TIME (stats_dict self)) as [[v|buf avg]|];
      [destruct (tracked ETA self); reflexivity| |]; cbv zeta;
      simpl buffer_of.
    all: match goal with
         | |- context [(max_history ?t <=? ?b) && ?c] =>
             destruct ((max_history t <=? b) && c)
         end; [destruct (tracked ETA self); reflexivity|].
    all: destruct (tracked ETA self); [|simpl; apply Hset].
    all: destruct (Py.mul_int_float _ _) as [eta|err]; simpl;
      [eexists; apply dict_get_set_same | apply Hset].
  - rewrite update_time_without_step by assumption. simpl Stats_beq. simpl andb.
    destruct (derived_value s e bs) as [val|err];
      [|destruct (tracked ETA self); reflexivity]. cbv zeta.
    destruct (tracked ETA self); simpl; apply Hset.
Qed.

Lemma eta_written_snoc (fmt : Formatting) (calls : list call) (c : call)
    (self : StatsTracker) :
  eta_written fmt (calls ++ [c]) self
  = eta_written fmt calls self || writes_eta c (run fmt calls self).
Proof.
  revert self. induction calls as [|c0 calls IH]; intro self; simpl.
  - now rewrite orb_false_r.
  - now rewrite IH, orb_assoc.
Qed.

(** After a sequence of [update_time] calls with a step: the window of the
    recorded values and its mean, or, for [ETA] once it has been written
    from [ITER_TRAIN_TIME], a plain float. *)
Lemma window_after_calls (fmt : Formatting) (self0 : StatsTracker)
    (name : Stats) (calls : list call) :
  stats_dict self0 = [] ->
  1 <= max_history self0 ->
  tracked name self0 = true ->
  Forall (fun c => step_present c = true) calls ->
  if Stats_beq name ETA && eta_written fmt calls self0
  then exists v, dict_get name (stats_dict (run fmt calls self0)) = Some (Scalar v)
  else dict_get name (stats_dict (run fmt calls self0))
       = match recorded_values name calls with
         | [] => None
         | _ :: _ =>
             Some (Averaged
                     (lastn (Z.to_nat (max_history self0))
                            (recorded_values name calls))
                     (arithmetic_mean
                        (lastn (Z.to_nat (max_history self0))
                               (recorded_values name calls))))
         end.
Proof.
  intros Hempty Hcap Ht.
  induction calls as [|c calls IH] using rev_ind; intros Hsteps.
  - simpl. rewrite andb_false_r. now rewrite Hempty.
  - apply Forall_app in Hsteps. destruct Hsteps as [Hsteps Hc].
    apply Forall_inv in Hc. specialize (IH Hsteps).
    rewrite eta_written_snoc, run_snoc, recorded_values_snoc.
    set (self := run fmt calls self0) in *.
    set (vals := recorded_values name calls) in *.
    destruct c as [n value st | n s e [st|] bs | fd]; try discriminate.
    simpl exec. simpl recorded.
    assert (Ht' : tracked name self = true).
    { unfold self. now rewrite run_tracked. }
    assert (Hcap' : max_history self = max_history self0).
    { unfold self. now destruct (run_frame fmt calls self0) as (_ & -> & _). }
    destruct (Stats_eq_dec n name) as [->|Hne].
    + (* the call is on the key itself: it writes no ETA from elsewhere *)
      rewrite Stats_beq_refl.
      assert (Hw : Stats_beq name ETA
                   && writes_eta (UpdateTime name s e (Some st) bs) self = false).
      { unfold writes_eta. destruct name; reflexivity. }
      assert (Hif : Stats_beq name ETA
                    && (eta_written fmt calls self0
                        || writes_eta (UpdateTime name s e (Some st) bs) self)
                    = Stats_beq name ETA && eta_written fmt calls self0).
      { rewrite andb_orb_distrib_r, Hw. apply orb_false_r. }
      rewrite Hif.
      destruct (Stats_beq name ETA && eta_written fmt calls self0).
      * destruct IH as [v Hv]. exists v.
        rewrite (update_time_with_step name s e st bs self Ht'), Hv.
        now destruct (derived_value s e bs).
      * destruct (derived_value s e bs) as [val|err] eqn:Hval.
        -- assert (Hbuf : buffer_of (dict_get name (stats_dict self))
                          = lastn (Z.to_nat (max_history self0)) vals).
           { rewrite IH. now destruct vals. }
           pose proof (update_time_stored name s e st bs val self Ht' Hval) as Hst.
           cbv zeta in Hst. rewrite Hbuf, Hcap', pushed_lastn in Hst by assumption.
           rewrite Hst.
           ++ destruct (vals ++ [val]) eqn:E; [|reflexivity].
              apply app_eq_nil in E. destruct E. discriminate.
           ++ intros v Hv. rewrite IH in Hv. destruct vals; discriminate.
           ++ right. lia.
        -- rewrite app_nil_r, <- IH.
           rewrite update_time_with_step by assumption. now rewrite Hval.
    + rewrite (Stats_beq_neq n name) by assumption. rewrite app_nil_r.
      pose proof (eta_after_other_call n s e (Some st) bs self) as Hc'.
      remember (writes_eta (UpdateTime n s e (Some st) bs) self) as w eqn:Hw.
      remember (eta_written fmt calls self0) as W eqn:HW.
      destruct (Stats_beq name ETA) eqn:Hname; simpl andb in *.
      * apply Stats_beq_eq in Hname. subst name. specialize (Hc' Hne).
        destruct W; destruct w; simpl orb; cbv iota.
        -- exact Hc'.
        -- destruct IH as [v Hv]. exists v. now rewrite Hc'.
        -- exact Hc'.
        -- rewrite Hc'. exact IH.
      * rewrite <- IH. apply update_time_other_key; [congruence|].
        intro Hk. rewrite Hk, Stats_beq_refl in Hname. discriminate.
Qed.

(** C1, as the code has it.  For a tracked key and a sequence of
    [update_time] calls that all pass a step, run from [__init__] with a
    positive [max_history]: after each call the key holds, once a value has
    been recorded for it, the buffer of its most recent at most
    [max_history] values in the order of the calls, and as average the mean
    of that buffer: its sum over its length, in the floats of the code.
    The key [ETA] is the exception once a call on [ITER_TRAIN_TIME] has
    written its entry: from then on [ETA] holds a plain float, with no
    buffer and no average. *)
Theorem average_is_mean_of_window (fmt : Formatting) (cfg : Config)
    (self0 : StatsTracker) (name : Stats) (calls : list call) :
  init cfg = Returns (Enabled self0) ->
  1 <= max_history self0 ->
  tracked name self0 = true ->
  Forall (fun c => step_present c = true) calls ->
  forall n,
    let seen := firstn n calls in
    let window := lastn (Z.to_nat (max_history self0)) (recorded_values name seen) in
    if Stats_beq name ETA && eta_written fmt seen self0
    then exists v,
           dict_get name (stats_dict (run fmt seen self0)) = Some (Scalar v)
    else dict_get name (stats_dict (run fmt seen self0))
         = match recorded_values name seen with
           | [] => None
           | _ :: _ => Some (Averaged window (arithmetic_mean window))
           end.
Proof.
  intros Hinit Hcap Ht Hsteps n seen window.
  assert (Hseen : Forall (fun c => step_present c = true) seen).
  { rewrite <- (firstn_skipn n calls) in Hsteps.
    apply Forall_app in Hsteps. now destruct Hsteps. }
  apply window_after_calls; auto.
  now apply (init_stats_dict cfg).
Qed.

Lemma average_is_mean_of_window_witness :
  init example_config = Returns (Enabled example_tracker) /\
  1 <= max_history example_tracker /\
  tracked ETA example_tracker = true /\
  dict_get ETA
    (stats_dict (run example_formatting
                   (firstn 3 [UpdateTime ETA 0 4 (Some 1) None;
                              UpdateTime RAYS_PER_SEC 0 2 (Some 1) (Some 4);
                              UpdateTime ETA 0 6 (Some 2) None;
                              UpdateTime ITER_TRAIN_TIME 0 0.5 (Some 2) None])
                   example_tracker))
  = Some (Averaged [4%float; 6%float] 5).
Proof.
  split; [reflexivity|]. split; [simpl; lia|]. split; [reflexivity|].
  refine (average_is_mean_of_window example_formatting example_config
            example_tracker ETA
            [UpdateTime ETA 0 4 (Some 1) None;
             UpdateTime RAYS_PER_SEC 0 2 (Some 1) (Some 4);
             UpdateTime ETA 0 6 (Some 2) None;
             UpdateTime ITER_TRAIN_TIME 0 0.5 (Some 2) None]
            eq_refl _ eq_refl _ 3%nat).
  - simpl. lia.
  - repeat constructor.
Defined.

(** C1 as stated fails for the key [ETA]: three calls with a step, on
    [ETA], on [ITER_TRAIN_TIME] and on [ETA] again, record 4.0 and 6.0 for
    [ETA], yet its entry is the plain float 499.0 that the second call
    wrote (998 times the average 0.5), not a buffer with its mean. *)
Lemma eta_average_lost_to_iter_train_time :
  init example_config = Returns (Enabled example_tracker) /\
  tracked ETA example_tracker = true /\
  forallb step_present
    [UpdateTime ETA 0 4 (Some 1) None;
     UpdateTime ITER_TRAIN_TIME 0 0.5 (Some 2) None;
     UpdateTime ETA 0 6 (Some 3) None] = true /\
  recorded_values ETA
    [UpdateTime ETA 0 4 (Some 1) None;
     UpdateTime ITER_TRAIN_TIME 0 0.5 (Some 2) None;
     UpdateTime ETA 0 6 (Some 3) None] = [4%float; 6%float] /\
  dict_get ETA
    (stats_dict (run example_formatting
                   [UpdateTime ETA 0 4 (Some 1) None;
                    UpdateTime ITER_TRAIN_TIME 0 0.5 (Some 2) None;
                    UpdateTime ETA 0 6 (Some 3) None] example_tracker))
  = Some (Scalar 499) /\
  dict_get ETA
    (stats_dict (run example_formatting
                   [UpdateTime ETA 0 4 (Some 1) None;
                    UpdateTime ITER_TRAIN_TIME 0 0.5 (Some 2) None;
                    UpdateTime ETA 0 6 (Some 3) None] example_tracker))
  <> Some (Averaged (lastn 2 [4%float; 6%float])
                    (arithmetic_mean (lastn 2 [4%float; 6%float]))).
Proof.
  split; [reflexivity|]. split; [reflexivity|]. split; [reflexivity|].
  split; [reflexivity|]. split; [reflexivity|].
  simpl. discriminate.
Qed.

(** * Further properties of the code *)

(** ** [__init__]: the tracked set *)

Lemma Stats_getitem_name (k : Stats) : Stats_getitem (Stats_name k) = Returns k.
Proof. destruct k; reflexivity. Qed.

Lemma Stats_getitem_inv (name : string) (k : Stats) :
  Stats_getitem name = Returns k -> name = Stats_name k.
Proof.
  unfold Stats_getitem.
  repeat match goal with
         | |- context [String.eqb name ?lit] =>
             destruct (String.eqb_spec name lit) as [->|_];
             [intro H; injection H as <-; reflexivity|]
         end.
  discriminate.
Qed.

Lemma Stats_getitem_raises (name : string) (e : exn) :
  Stats_getitem name = Raises e ->
  e = KeyError /\ forall k, name <> Stats_name k.
Proof.
  intro H. split.
  - unfold Stats_getitem in H.
    repeat match type of H with
           | context [String.eqb name ?lit] =>
               destruct (String.eqb name lit); [discriminate|]
           end.
    congruence.
  - intros k ->. rewrite Stats_getitem_name in H. discriminate.
Qed.

Lemma collect_stats_returns (names : list string) (acc s : set Stats) :
  collect_stats names acc = Returns s ->
  (forall k, In k s <-> In k acc \/ In (Stats_name k) names) /\
  (NoDup acc -> NoDup s).
Proof.
  revert acc. induction names as [|name names IH]; intros acc; simpl.
  - intro H. injection H as <-. split; [intro k; tauto | auto].
  - destruct (Stats_getitem name) as [k0|e] eqn:Hname; [|discriminate].
    apply Stats_getitem_inv in Hname. subst name.
    intro H. destruct (IH _ H) as [Hin Hnd]. split.
    + intro k. rewrite Hin, set_add_iff. split.
      * intros [[->|Hk]|Hk]; auto.
      * intros [Hk|[Hk|Hk]]; auto.
        left. left. destruct k, k0; simpl in Hk; congruence.
    + intro Hacc. apply Hnd. now apply set_add_nodup.
Qed.

Lemma collect_stats_raises (names : list string) (acc : set Stats) (e : exn) :
  collect_stats names acc = Raises e ->
  e = KeyError /\ exists name, In name names /\ forall k, name <> Stats_name k.
Proof.
  revert acc. induction names as [|name names IH]; intros acc; simpl;
    [discriminate|].
  destruct (Stats_getitem name) as [k0|e0] eqn:Hname.
  - intro H. destruct (IH _ H) as [He (n & Hn & Hbad)].
    split; [exact He|]. exists n. auto.
  - intro H. injection H as <-.
    destruct (Stats_getitem_raises _ _ Hname) as [He Hbad].
    split; [exact He|]. exists name. auto.
Qed.

Lemma init_starts_empty (cfg : Config) (self : StatsTracker) :
  init cfg = Returns (Enabled self) ->
  stats_dict self = [] /\ past_stats self = [] /\ new_key self = false.
Proof.
  unfold init. destruct (enable_stats cfg); [|discriminate].
  destruct (collect_stats _ _); [|discriminate].
  intro H. now injection H as <-.
Qed.

(** X1.  With statistics enabled, when [__init__] returns, a key is tracked
    exactly when its member name is listed in the configuration, however
    often and in whatever order, and no key is in the set twice.  With
    statistics disabled [__init__] returns an object that carries the
    configuration only, and does so whatever the list holds: the names are
    not read, so an unknown name raises nothing. *)
Theorem init_tracks_listed_names (cfg : Config) :
  (enable_stats cfg = true ->
   forall inst, init cfg = Returns inst ->
     exists self,
       inst = Enabled self /\
       (forall k, tracked k self = true
                  <-> In (Stats_name k) (cfg_stats_to_track cfg)) /\
       NoDup (stats_to_track self)) /\
  (enable_stats cfg = false -> init cfg = Returns (Disabled cfg)).
Proof.
  unfold init. split; intros Hen; rewrite Hen; [|reflexivity].
  intros inst.
  destruct (collect_stats _ _) as [s|e] eqn:Hs; [|discriminate].
  intro H. injection H as <-.
  destruct (collect_stats_returns _ _ _ Hs) as [Hin Hnd].
  eexists. split; [reflexivity|]. split; [|apply Hnd; constructor].
  intro k. unfold tracked. simpl. split.
  - intro Hm. apply set_mem_correct1 in Hm. apply Hin in Hm.
    destruct Hm as [[]|Hm]. exact Hm.
  - intro Hk. apply set_mem_correct2. apply Hin. now right.
Qed.

Lemma init_tracks_listed_names_witness :
  enable_stats example_config = true /\
  init example_config = Returns (Enabled example_tracker) /\
  exists self,
    Enabled example_tracker = Enabled self /\
    (forall k, tracked k self = true
               <-> In (Stats_name k) (cfg_stats_to_track example_config)) /\
    NoDup (stats_to_track self).
Proof.
  split; [reflexivity|]. split; [reflexivity|].
  exact (proj1 (init_tracks_listed_names example_config) eq_refl
               (Enabled example_tracker) eq_refl).
Defined.

(** X2.  [__init__] fails only on a name that is no member of [Stats], and
    then with the [KeyError] of [Stats[name]]; when every listed name is a
    member name it returns. *)
Theorem init_raises_only_on_unknown_name (cfg : Config) :
  (Forall (fun name => exists k, name = Stats_name k) (cfg_stats_to_track cfg) ->
   exists inst, init cfg = Returns inst) /\
  (forall e, init cfg = Raises e ->
     e = KeyError /\
     exists name, In name (cfg_stats_to_track cfg) /\
                  forall k, name <> Stats_name k).
Proof.
  unfold init. destruct (enable_stats cfg);
    [|split; [intros _; eexists; reflexivity | discriminate]].
  split.
  - intro Hall.
    destruct (collect_stats _ _) as [s|e] eqn:Hs; [eexists; reflexivity|].
    destruct (collect_stats_raises _ _ _ Hs) as [_ (name & Hin & Hbad)].
    rewrite Forall_forall in Hall. destruct (Hall _ Hin) as [k Hk].
    now destruct (Hbad k).
  - intros e.
    destruct (collect_stats _ _) as [s|e0] eqn:Hs; [discriminate|].
    intro H. injection H as <-. now apply (collect_stats_raises _ _ _ Hs).
Qed.

(** ** [update_value]: overwriting *)

Lemma dict_mem_set_same (k : Stats) (e : entry) (d : dict) :
  dict_mem k (dict_set k e d) = true.
Proof. unfold dict_mem. now rewrite dict_get_set_same. Qed.

(** X3.  [update_value] overwrites: of two calls on the same key only the
    second shows in the tracker (its value, its step), so a call repeated
    with the same arguments changes nothing. *)
Theorem update_value_last_write_wins (name : Stats) (v1 v2 : float)
    (s1 s2 : Z) (self : StatsTracker) :
  fst (update_value name v2 s2 (fst (update_value name v1 s1 self)))
  = fst (update_value name v2 s2 self) /\
  update_value name v1 s1 (fst (update_value name v1 s1 self))
  = update_value name v1 s1 self.
Proof.
  assert (Htwice : forall a sa b sb,
    update_value name b sb (fst (update_value name a sa self))
    = update_value name b sb self).
  { intros a sa b sb. destruct (tracked name self) eqn:Ht.
    - rewrite (update_value_tracked name a sa self Ht). simpl fst.
      rewrite !update_value_tracked by assumption.
      unfold entered, with_stats_dict, with_new_key, with_step. simpl.
      now rewrite dict_mem_set_same, dict_set_set.
    - rewrite (update_value_untracked name a sa self Ht). reflexivity. }
  split; now rewrite Htwice.
Qed.

(** ** The shape of the dictionary after a call *)

(** A call leaves the dictionary as it was, or sets the entry of the
    tracked key it names, or, on [ITER_TRAIN_TIME] with [ETA] tracked, sets
    that entry and then the [ETA] one. *)
Lemma exec_dict_cases (fmt : Formatting) (c : call) (self : StatsTracker) :
  stats_dict (exec fmt c self) = stats_dict self \/
  (exists n x,
     call_name c = Some n /\ tracked n self = true /\
     stats_dict (exec fmt c self) = dict_set n x (stats_dict self)) \/
  (exists x y,
     call_name c = Some ITER_TRAIN_TIME /\ tracked ETA self = true /\
     tracked ITER_TRAIN_TIME self = true /\
     stats_dict (exec fmt c self)
     = dict_set ETA y (dict_set ITER_TRAIN_TIME x (stats_dict self))).
Proof.
  destruct c as [name value st | name s e st bs | fd]; simpl.
  - destruct (tracked name self) eqn:Ht.
    + rewrite update_value_tracked by assumption. right. left.
      now exists name, (Scalar value).
    + rewrite update_value_untracked by assumption. now left.
  - destruct (tracked name self) eqn:Ht;
      [|rewrite update_time_untracked by assumption; now left].
    assert (Hone : forall x o,
      stats_dict (fst (with_stats_dict (dict_set name x (stats_dict self))
                                       (entered name st self), o : outcome unit))
      = stats_dict self \/
      (exists n x0, Some name = Some n /\ tracked n self = true /\
         stats_dict (fst (with_stats_dict (dict_set name x (stats_dict self))
                                          (entered name st self), o))
         = dict_set n x0 (stats_dict self)) \/
      (exists x0 y, Some name = Some ITER_TRAIN_TIME /\ tracked ETA self = true /\
         tracked ITER_TRAIN_TIME self = true /\
         stats_dict (fst (with_stats_dict (dict_set name x (stats_dict self))
                                          (entered name st self), o))
         = dict_set ETA y (dict_set ITER_TRAIN_TIME x0 (stats_dict self)))).
    { intros x o. right. left. now exists name, x. }
    destruct st as [st|].
    + rewrite update_time_with_step by assumption.
      destruct (derived_value s e bs) as [val|err]; [|now left].
      destruct (dict_get name (stats_dict self)) as [[v|buf avg]|];
        [now left| |]; cbv zeta.
      all: destruct (_ && (_ =? 0)%nat); [now left|].
      all: destruct (Stats_beq name ITER_TRAIN_TIME && tracked ETA self) eqn:Hb;
        [|apply Hone].
      all: destruct (Py.mul_int_float _ _); [|apply Hone].
      all: apply andb_prop in Hb; destruct Hb as [Hn Heta];
        apply Stats_beq_eq in Hn; subst name.
      all: right; right; eexists; eexists; simpl; repeat split; assumption.
    + rewrite update_time_without_step by assumption.
      destruct (derived_value s e bs) as [val|err]; [|now left]. cbv zeta.
      destruct (Stats_beq name ITER_TRAIN_TIME && tracked ETA self); apply Hone.
  - left. unfold print_stats. now rewrite handle_stats_state.
Qed.

Lemma dict_keys_set (k : Stats) (e : entry) (d : dict) :
  dict_keys (dict_set k e d)
  = if dict_mem k d then dict_keys d else dict_keys d ++ [k].
Proof.
  unfold dict_keys, dict_mem.
  induction d as [|[k' e'] d IH]; simpl; [reflexivity|].
  destruct (Stats_beq k k') eqn:E; simpl.
  - apply Stats_beq_eq in E. now subst.
  - rewrite IH. now destruct (dict_get k d).
Qed.

Lemma dict_mem_keys (k : Stats) (d : dict) :
  dict_mem k d = true <-> In k (dict_keys d).
Proof.
  unfold dict_keys, dict_mem.
  induction d as [|[k' e'] d IH]; simpl; [split; [discriminate|tauto]|].
  destruct (Stats_beq k k') eqn:E.
  - apply Stats_beq_eq in E. subst. split; auto.
  - split.
    + intro H. right. now apply IH.
    + intros [->|H]; [now rewrite Stats_beq_refl in E | now apply IH].
Qed.

Lemma dict_keys_set_grows (k : Stats) (e : entry) (d : dict) :
  (exists new, dict_keys (dict_set k e d) = dict_keys d ++ new) /\
  (NoDup (dict_keys d) -> NoDup (dict_keys (dict_set k e d))).
Proof.
  rewrite dict_keys_set. destruct (dict_mem k d) eqn:Hm.
  - split; [exists []; now rewrite app_nil_r | auto].
  - split; [now exists [k]|].
    intro Hnd. apply NoDup_app; [exact Hnd | repeat constructor; intros [] |].
    intros a Ha [<-|[]]. apply dict_mem_keys in Ha. congruence.
Qed.

(** X4.  The keys of the dictionary keep their order: whatever the calls,
    the keys present before stay where they are and new keys go after
    them; run from [__init__], no key is there twice.  (This is the order
    of the columns that [handle_header] and [handle_stats] print.) *)
Theorem key_order_is_stable (fmt : Formatting) (calls : list call)
    (self : StatsTracker) :
  (exists new,
     dict_keys (stats_dict (run fmt calls self))
     = dict_keys (stats_dict self) ++ new) /\
  (NoDup (dict_keys (stats_dict self)) ->
   NoDup (dict_keys (stats_dict (run fmt calls self)))).
Proof.
  induction calls as [|c calls IH] using rev_ind.
  - split; [exists []; simpl; now rewrite app_nil_r | auto].
  - rewrite run_snoc. destruct IH as [[new Hnew] Hnd].
    set (mid := run fmt calls self) in *.
    destruct (exec_dict_cases fmt c mid)
      as [-> | [(n & x & _ & _ & ->) | (x & y & _ & _ & _ & ->)]].
    + split; [now exists new | exact Hnd].
    + destruct (dict_keys_set_grows n x (stats_dict mid)) as [[m Hm] Hk].
      split; [|auto].
      exists (new ++ m). now rewrite Hm, Hnew, app_assoc.
    + destruct (dict_keys_set_grows ITER_TRAIN_TIME x (stats_dict mid))
        as [[m Hm] Hk].
      destruct (dict_keys_set_grows ETA y
                  (dict_set ITER_TRAIN_TIME x (stats_dict mid))) as [[m' Hm'] Hk'].
      split; [|auto].
      exists (new ++ m ++ m'). now rewrite Hm', Hm, Hnew, !app_assoc.
Qed.

(** X5.  Run from [__init__], the dictionary only ever holds tracked keys,
    that is keys whose names the configuration lists. *)
Theorem stored_keys_are_tracked (fmt : Formatting) (cfg : Config)
    (self0 : StatsTracker) (calls : list call) (k : Stats) :
  init cfg = Returns (Enabled self0) ->
  dict_mem k (stats_dict (run fmt calls self0)) = true ->
  tracked k self0 = true /\ In (Stats_name k) (cfg_stats_to_track cfg).
Proof.
  intros Hinit Hmem.
  assert (Ht : tracked k self0 = true).
  { pose proof (run_well_formed fmt calls self0 (init_well_formed cfg self0 Hinit))
      as Hwf.
    unfold dict_mem in Hmem.
    destruct (dict_get k (stats_dict (run fmt calls self0))) as [x|] eqn:Hget;
      [|discriminate].
    destruct (Hwf k x Hget) as [Hk _].
    rewrite <- (run_tracked fmt calls k self0). exact Hk. }
  split; [exact Ht|].
  unfold init in Hinit.
  destruct (enable_stats cfg); [|discriminate].
  destruct (collect_stats _ _) as [s|e] eqn:Hs; [|discriminate].
  injection Hinit as <-.
  destruct (collect_stats_returns _ _ _ Hs) as [Hin _].
  unfold tracked in Ht. simpl in Ht. apply set_mem_correct1 in Ht.
  apply Hin in Ht. now destruct Ht as [[]|Ht].
Qed.

Lemma stored_keys_are_tracked_witness :
  init example_config = Returns (Enabled example_tracker) /\
  dict_mem ETA
    (stats_dict (run example_formatting
                   [UpdateTime ITER_TRAIN_TIME 0 0.5 (Some 400) None]
                   example_tracker)) = true /\
  tracked ETA example_tracker = true /\
  In (Stats_name ETA) (cfg_stats_to_track example_config).
Proof.
  split; [reflexivity|]. split; [reflexivity|].
  exact (stored_keys_are_tracked example_formatting example_config example_tracker
           [UpdateTime ITER_TRAIN_TIME 0 0.5 (Some 400) None] ETA eq_refl eq_refl).
Defined.

(** ** The flag over a run *)

Lemma exec_new_key (fmt : Formatting) (c : call) (self : StatsTracker) :
  new_key (exec fmt c self)
  = match call_name c with
    | Some k =>
        if tracked k self
        then negb (dict_mem k (stats_dict self)) || new_key self
        else new_key self
    | None => new_key self
    end.
Proof.
  destruct c as [name value st | name s e st bs | fd]; simpl.
  - destruct (tracked name self) eqn:Ht.
    + now rewrite update_value_tracked.
    + now rewrite update_value_untracked.
  - destruct (tracked name self) eqn:Ht.
    + destruct (update_time_shape name s e st bs self Ht) as [d ->].
      reflexivity.
    + now rewrite update_time_untracked.
  - unfold print_stats. now rewrite handle_stats_state.
Qed.

(** X6.  Run from [__init__], the flag is up exactly when some ingestion
    call has named a tracked key, whether that call returned or raised;
    nothing ever takes it down again. *)
Theorem new_key_marks_first_tracked_call (fmt : Formatting) (cfg : Config)
    (self0 : StatsTracker) (calls : list call) :
  init cfg = Returns (Enabled self0) ->
  new_key (run fmt calls self0) = existsb (names_tracked_key self0) calls.
Proof.
  intro Hinit.
  destruct (init_starts_empty cfg self0 Hinit) as (Hd0 & _ & Hk0).
  assert (Hinv : new_key (run fmt calls self0)
                 = existsb (names_tracked_key self0) calls /\
                 (existsb (names_tracked_key self0) calls = false ->
                  stats_dict (run fmt calls self0) = [])).
  { induction calls as [|c calls IH] using rev_ind; [now simpl|].
    destruct IH as [IHk IHd].
    rewrite run_snoc, existsb_app. simpl existsb. rewrite orb_false_r.
    set (mid := run fmt calls self0) in *.
    assert (Hsame : forall k, tracked k mid = tracked k self0).
    { intro k. unfold mid. apply run_tracked. }
    rewrite exec_new_key. unfold names_tracked_key.
    destruct (call_name c) as [k|] eqn:Hc.
    - rewrite Hsame. destruct (tracked k self0) eqn:Ht.
      + split; [|rewrite orb_true_r; discriminate].
        rewrite IHk.
        destruct (existsb _ calls) eqn:Hex; [apply orb_true_r|].
        rewrite (IHd eq_refl). reflexivity.
      + rewrite orb_false_r. split; [exact IHk|].
        intro Hex.
        destruct (exec_dict_cases fmt c mid)
          as [-> | [(n & x & Hn & Htn & _) | (x & y & Hn & _ & Htn & _)]];
          [auto | |]; rewrite Hc in Hn; injection Hn as Hn; subst;
          rewrite Hsame in Htn; congruence.
    - rewrite orb_false_r. split; [exact IHk|].
      intro Hex.
      destruct (exec_dict_cases fmt c mid)
        as [-> | [(n & x & Hn & _) | (x & y & Hn & _)]];
        [auto | |]; rewrite Hc in Hn; discriminate. }
  exact (proj1 Hinv).
Qed.

Lemma new_key_marks_first_tracked_call_witness :
  init example_config = Returns (Enabled example_tracker) /\
  new_key (run example_formatting
             [UpdateValue CURR_TEST_PSNR 30 1; PrintStats 0.5;
              UpdateTime RAYS_PER_SEC 1 1 (Some 2) (Some 4096); PrintStats 0.5]
             example_tracker)
  = existsb (names_tracked_key example_tracker)
      [UpdateValue CURR_TEST_PSNR 30 1; PrintStats 0.5;
       UpdateTime RAYS_PER_SEC 1 1 (Some 2) (Some 4096); PrintStats 0.5].
Proof.
  split; [reflexivity|].
  exact (new_key_marks_first_tracked_call example_formatting example_config
           example_tracker
           [UpdateValue CURR_TEST_PSNR 30 1; PrintStats 0.5;
            UpdateTime RAYS_PER_SEC 1 1 (Some 2) (Some 4096); PrintStats 0.5]
           eq_refl).
Defined.

(** ** Mixing plain values and averages under one key *)

Lemma entered_known_key (name : Stats) (st : option Z) (x : entry)
    (self : StatsTracker) :
  dict_get name (stats_dict self) = Some x ->
  entered name st self = with_step st self.
Proof. intro Hget. unfold entered, dict_mem. now rewrite Hget. Qed.

Lemma update_time_raises_on_plain (name : Stats) (s e : float) (st : Z)
    (bs : option Z) (v : float) (self : StatsTracker) :
  tracked name self = true ->
  dict_get name (stats_dict self) = Some (Scalar v) ->
  snd (update_time name s e (Some st) bs self)
  = match derived_value s e bs with
    | Returns _ => Raises TypeError
    | Raises err => Raises err
    end.
Proof.
  intros Ht Hget. rewrite update_time_with_step by assumption.
  rewrite Hget. now destruct (derived_value s e bs).
Qed.

(** X7.  With a step, on a tracked key that holds a plain float,
    [update_time] raises [TypeError] (the float has no ["buffer"]): the
    dictionary and the flag are as before, only the step counter has been
    overwritten.  An error of the derivation comes first. *)
Theorem update_time_rejects_plain_entry (name : Stats) (s e : float) (st : Z)
    (bs : option Z) (v : float) (self : StatsTracker) :
  tracked name self = true ->
  dict_get name (stats_dict self) = Some (Scalar v) ->
  update_time name s e (Some st) bs self
  = (with_step (Some st) self,
     match derived_value s e bs with
     | Returns _ => Raises TypeError
     | Raises err => Raises err
     end).
Proof.
  intros Ht Hget. rewrite update_time_with_step by assumption.
  rewrite (entered_known_key name (Some st) (Scalar v) self Hget), Hget.
  now destruct (derived_value s e bs).
Qed.

Lemma update_time_rejects_plain_entry_witness :
  tracked RAYS_PER_SEC (fst (update_value RAYS_PER_SEC 7 1 example_tracker)) = true /\
  dict_get RAYS_PER_SEC
    (stats_dict (fst (update_value RAYS_PER_SEC 7 1 example_tracker)))
  = Some (Scalar 7) /\
  snd (update_time RAYS_PER_SEC 0 2 (Some 2) None
         (fst (update_value RAYS_PER_SEC 7 1 example_tracker)))
  = Raises TypeError.
Proof.
  split; [reflexivity|]. split; [reflexivity|].
  exact (f_equal snd
           (update_time_rejects_plain_entry RAYS_PER_SEC 0 2 2 None 7
              (fst (update_value RAYS_PER_SEC 7 1 example_tracker))
              eq_refl eq_refl)).
Defined.

(** X8.  A key written by [update_value], or by [update_time] without a
    step, cannot be averaged afterwards: the next [update_time] with a step
    on that key raises (a [TypeError] when its value derives), whatever the
    key held before. *)
Theorem plain_write_blocks_averaging (name : Stats) (s e : float) (st : Z)
    (bs : option Z) (self : StatsTracker) :
  tracked name self = true ->
  (forall value st0,
     snd (update_time name s e (Some st) bs
            (fst (update_value name value st0 self)))
     = match derived_value s e bs with
       | Returns _ => Raises TypeError
       | Raises err => Raises err
       end) /\
  (forall s0 e0 bs0 val0,
     derived_value s0 e0 bs0 = Returns val0 ->
     snd (update_time name s e (Some st) bs
            (fst (update_time name s0 e0 None bs0 self)))
     = match derived_value s e bs with
       | Returns _ => Raises TypeError
       | Raises err => Raises err
       end).
Proof.
  intro Ht. split.
  - intros value st0.
    rewrite (update_value_tracked name value st0 self Ht). simpl fst.
    apply (update_time_raises_on_plain name s e st bs value).
    + exact Ht.
    + simpl. apply dict_get_set_same.
  - intros s0 e0 bs0 val0 Hval0.
    rewrite (update_time_without_step name s0 e0 bs0 self Ht), Hval0. cbv zeta.
    assert (Hgoal : forall o : outcome unit,
      snd (update_time name s e (Some st) bs
             (fst (with_stats_dict (dict_set name (Scalar val0) (stats_dict self))
                                   (entered name None self), o)))
      = match derived_value s e bs with
        | Returns _ => Raises TypeError
        | Raises err => Raises err
        end).
    { intro o. simpl fst.
      apply (update_time_raises_on_plain name s e st bs val0).
      - exact Ht.
      - simpl. apply dict_get_set_same. }
    destruct (Stats_beq name ITER_TRAIN_TIME && tracked ETA self); apply Hgoal.
Qed.

Lemma plain_write_blocks_averaging_witness :
  tracked RAYS_PER_SEC
    (fst (update_time RAYS_PER_SEC 0 1 (Some 1) None example_tracker)) = true /\
  dict_get RAYS_PER_SEC
    (stats_dict (fst (update_time RAYS_PER_SEC 0 1 (Some 1) None example_tracker)))
  = Some (Averaged [1%float] 1) /\
  snd (update_time RAYS_PER_SEC 0 2 (Some 3) None
         (fst (update_value RAYS_PER_SEC 7 2
                 (fst (update_time RAYS_PER_SEC 0 1 (Some 1) None example_tracker)))))
  = Raises TypeError.
Proof.
  split; [reflexivity|]. split; [reflexivity|].
  exact (proj1 (plain_write_blocks_averaging RAYS_PER_SEC 0 2 3 None
                  (fst (update_time RAYS_PER_SEC 0 1 (Some 1) None example_tracker))
                  eq_refl) 7%float 2).
Defined.

(** ** A history length that is not positive *)

(** X9.  Run from [__init__] with [max_history <= 0], [update_time] with a
    step never stores anything: on a tracked key whose value derives, it
    raises [IndexError] from [pop(0)] on the empty buffer (or [TypeError]
    when the key holds a plain float), and the dictionary is untouched. *)
Theorem nonpositive_max_history_never_stores (fmt : Formatting) (cfg : Config)
    (self0 : StatsTracker) (calls : list call) (name : Stats) (s e : float)
    (st : Z) (bs : option Z) (val : float) :
  init cfg = Returns (Enabled self0) ->
  max_history self0 <= 0 ->
  tracked name self0 = true ->
  derived_value s e bs = Returns val ->
  let self := run fmt calls self0 in
  snd (update_time name s e (Some st) bs self)
  = (if dict_mem name (stats_dict self) then Raises TypeError
     else Raises IndexError) /\
  stats_dict (fst (update_time name s e (Some st) bs self)) = stats_dict self.
Proof.
  intros Hinit Hcap Ht Hval self.
  assert (Hwf : well_formed self).
  { apply run_well_formed. now apply (init_well_formed cfg). }
  assert (Ht' : tracked name self = true).
  { unfold self. now rewrite run_tracked. }
  assert (Hcap' : max_history self = max_history self0).
  { unfold self. now destruct (run_frame fmt calls self0) as (_ & -> & _). }
  rewrite update_time_with_step by assumption. rewrite Hval.
  unfold dict_mem.
  destruct (dict_get name (stats_dict self)) as [[v|buf avg]|] eqn:Hget.
  - split; reflexivity.
  - exfalso. destruct (Hwf name _ Hget) as [_ [Hne Hlen]].
    destruct buf; [congruence|]. simpl in Hlen. lia.
  - cbv zeta. simpl buffer_of. simpl List.length.
    replace (max_history self <=? Z.of_nat 0) with true
      by (symmetry; apply Z.leb_le; simpl; lia).
    split; reflexivity.
Qed.

Lemma nonpositive_max_history_never_stores_witness :
  init (mkConfig true 0 ["RAYS_PER_SEC"]%string 10)
  = Returns (Enabled (mkStatsTracker (mkConfig true 0 ["RAYS_PER_SEC"]%string 10)
                                     0 (Some 0) [] [] false [RAYS_PER_SEC])) /\
  update_time RAYS_PER_SEC 0 2 (Some 1) None
    (run example_formatting []
       (mkStatsTracker (mkConfig true 0 ["RAYS_PER_SEC"]%string 10) 0 (Some 0)
                       [] [] false [RAYS_PER_SEC]))
  = (mkStatsTracker (mkConfig true 0 ["RAYS_PER_SEC"]%string 10) 0 (Some 1)
                    [] [] true [RAYS_PER_SEC], Raises IndexError) /\
  snd (update_time RAYS_PER_SEC 0 2 (Some 1) None
         (run example_formatting []
            (mkStatsTracker (mkConfig true 0 ["RAYS_PER_SEC"]%string 10) 0 (Some 0)
                            [] [] false [RAYS_PER_SEC])))
  = Raises IndexError.
Proof.
  split; [reflexivity|]. split; [reflexivity|].
  refine (proj1 (nonpositive_max_history_never_stores example_formatting
                   (mkConfig true 0 ["RAYS_PER_SEC"]%string 10)
                   (mkStatsTracker (mkConfig true 0 ["RAYS_PER_SEC"]%string 10) 0
                                   (Some 0) [] [] false [RAYS_PER_SEC])
                   [] RAYS_PER_SEC 0 2 1 None 2 eq_refl _ eq_refl eq_refl)).
  simpl. lia.
Defined.

(** ** [ITER_TRAIN_TIME] without a step *)

(** X10.  On [ITER_TRAIN_TIME] with [ETA] tracked, [update_time] without a
    step raises [TypeError] at [max_num_iterations - None], after it has
    stored the derived float under [ITER_TRAIN_TIME]; [ETA] is not
    written. *)
Theorem iter_train_time_needs_step (s e : float) (bs : option Z) (val : float)
    (self : StatsTracker) :
  tracked ITER_TRAIN_TIME self = true ->
  tracked ETA self = true ->
  derived_value s e bs = Returns val ->
  snd (update_time ITER_TRAIN_TIME s e None bs self) = Raises TypeError /\
  dict_get ITER_TRAIN_TIME
    (stats_dict (fst (update_time ITER_TRAIN_TIME s e None bs self)))
  = Some (Scalar val) /\
  dict_get ETA (stats_dict (fst (update_time ITER_TRAIN_TIME s e None bs self)))
  = dict_get ETA (stats_dict self).
Proof.
  intros Ht Heta Hval.
  rewrite update_time_without_step by assumption.
  rewrite Hval, Heta. simpl.
  split; [reflexivity|]. split; [apply dict_get_set_same|].
  now apply dict_get_set_other.
Qed.

Lemma iter_train_time_needs_step_witness :
  tracked ITER_TRAIN_TIME example_tracker = true /\
  tracked ETA example_tracker = true /\
  derived_value 0 0.5 None = Returns 0.5%float /\
  update_time ITER_TRAIN_TIME 0 0.5 None None example_tracker
  = (mkStatsTracker example_config 2 None [(ITER_TRAIN_TIME, Scalar 0.5)] [] true
                    [ITER_TRAIN_TIME; ETA; RAYS_PER_SEC], Raises TypeError) /\
  snd (update_time ITER_TRAIN_TIME 0 0.5 None None example_tracker)
  = Raises TypeError.
Proof.
  split; [reflexivity|]. split; [reflexivity|]. split; [reflexivity|].
  split; [reflexivity|].
  exact (proj1 (iter_train_time_needs_step 0 0.5 None 0.5 example_tracker
                  eq_refl eq_refl eq_refl)).
Defined.

(** ** What the ingestion methods can raise *)

Lemma float_of_int_raises (n : Z) (err : exn) :
  Py.float_of_int n = Raises err -> err = OverflowError.
Proof.
  unfold Py.float_of_int. destruct (PrimFloat.is_infinity _); congruence.
Qed.

Lemma derived_value_raises (s e : float) (bs : option Z) (err : exn) :
  derived_value s e bs = Raises err ->
  err = ZeroDivisionError \/ err = OverflowError.
Proof.
  unfold derived_value, Py.truediv_int_float.
  destruct (truthy bs) as [n|]; [|discriminate].
  destruct (Py.float_of_int n) as [a|e0] eqn:Hn.
  - destruct (PrimFloat.eqb _ _); [|discriminate]. intro H. left. congruence.
  - intro H. right. injection H as <-. now apply (float_of_int_raises n).
Qed.

Lemma mul_int_float_raises (n : Z) (x : float) (err : exn) :
  Py.mul_int_float n x = Raises err -> err = OverflowError.
Proof.
  unfold Py.mul_int_float. destruct (Py.float_of_int n) eqn:Hn; [discriminate|].
  intro H. injection H as <-. now apply (float_of_int_raises n).
Qed.

(** X11.  [update_value] never raises.  [update_time] raises nothing but
    [ZeroDivisionError], [OverflowError], [TypeError] and [IndexError]; in
    particular the lookup [self.stats_dict[name]] of the ETA part never
    fails with a [KeyError]. *)
Theorem ingestion_exceptions (name : Stats) (self : StatsTracker) :
  (forall value st, snd (update_value name value st self) = Returns tt) /\
  (forall s e st bs err,
     snd (update_time name s e st bs self) = Raises err ->
     err = ZeroDivisionError \/ err = OverflowError \/
     err = TypeError \/ err = IndexError).
Proof.
  split.
  - intros value st. destruct (tracked name self) eqn:Ht.
    + now rewrite update_value_tracked.
    + now rewrite update_value_untracked.
  - intros s e st bs err.
    destruct (tracked name self) eqn:Ht;
      [|rewrite update_time_untracked by assumption; discriminate].
    destruct st as [st|].
    + rewrite update_time_with_step by assumption.
      destruct (derived_value s e bs) as [val|e0] eqn:Hval.
      * destruct (dict_get name (stats_dict self)) as [[v|buf avg]|];
          [simpl; intro H; injection H as <-; auto | |]; cbv zeta.
        all: destruct (_ && (_ =? 0)%nat);
          [simpl; intro H; injection H as <-; auto|].
        all: destruct (Stats_beq name ITER_TRAIN_TIME && tracked ETA self);
          [|discriminate].
        all: destruct (Py.mul_int_float _ _) as [eta|e1] eqn:Hmul;
          [discriminate|].
        all: simpl; intro H; injection H as <-.
        all: apply mul_int_float_raises in Hmul; auto.
      * simpl. intro H. injection H as <-.
        destruct (derived_value_raises _ _ _ _ Hval); auto.
    + rewrite update_time_without_step by assumption.
      destruct (derived_value s e bs) as [val|e0] eqn:Hval.
      * cbv zeta.
        destruct (Stats_beq name ITER_TRAIN_TIME && tracked ETA self);
          [|discriminate].
        simpl. intro H. injection H as <-. auto.
      * simpl. intro H. injection H as <-.
        destruct (derived_value_raises _ _ _ _ Hval); auto.
Qed.

(** X12.  When [update_time] with a step returns: on a tracked key that is
    absent or holds a buffer, with a value that derives and a positive
    [max_history], the call returns, save on [ITER_TRAIN_TIME] with [ETA]
    tracked when [max_num_iterations - step] is too large for a float. *)
Theorem update_time_returns (name : Stats) (s e : float) (st : Z)
    (bs : option Z) (val : float) (self : StatsTracker) :
  tracked name self = true ->
  derived_value s e bs = Returns val ->
  (forall v, dict_get name (stats_dict self) <> Some (Scalar v)) ->
  1 <= max_history self ->
  (snd (update_time name s e (Some st) bs self) = Returns tt
   <-> (name = ITER_TRAIN_TIME -> tracked ETA self = true ->
        exists r, Py.float_of_int (max_num_iterations (config self) - st)
                  = Returns r)).
Proof.
  intros Ht Hval Hscalar Hcap.
  rewrite update_time_with_step by assumption. rewrite Hval.
  assert (Hguard : forall buf : list float,
    (max_history self <=? Z.of_nat (List.length buf))
    && (List.length buf =? 0)%nat = false).
  { intros [|x l]; simpl; [|apply andb_false_r].
    rewrite andb_true_r. apply Z.leb_gt. lia. }
  assert (Hmain : forall buf',
    snd (if Stats_beq name ITER_TRAIN_TIME && tracked ETA self then
           match Py.mul_int_float (max_num_iterations (config self) - st)
                                  (arithmetic_mean buf') with
           | Returns eta =>
               (with_stats_dict
                  (dict_set ETA (Scalar eta)
                     (dict_set name (Averaged buf' (arithmetic_mean buf'))
                               (stats_dict self)))
                  (entered name (Some st) self), Returns tt)
           | Raises err =>
               (with_stats_dict
                  (dict_set name (Averaged buf' (arithmetic_mean buf'))
                            (stats_dict self))
                  (entered name (Some st) self), Raises err)
           end
         else (with_stats_dict
                 (dict_set name (Averaged buf' (arithmetic_mean buf'))
                           (stats_dict self))
                 (entered name (Some st) self), Returns tt)) = Returns tt
    <-> (name = ITER_TRAIN_TIME -> tracked ETA self = true ->
         exists r, Py.float_of_int (max_num_iterations (config self) - st)
                   = Returns r)).
  { intro buf'. unfold Py.mul_int_float.
    destruct (Stats_beq name ITER_TRAIN_TIME) eqn:Hn; simpl.
    - apply Stats_beq_eq in Hn.
      destruct (tracked ETA self) eqn:Heta; simpl.
      + destruct (Py.float_of_int _) as [r|e0]; simpl.
        * split; [intros _ _ _; now exists r | reflexivity].
        * split; [discriminate|].
          intro H. destruct (H Hn eq_refl) as [r Hr]. discriminate.
      + split; [intros _ _; discriminate | reflexivity].
    - split; [|reflexivity].
      intros _ Hname. rewrite Hname in Hn. discriminate. }
  destruct (dict_get name (stats_dict self)) as [[v|buf avg]|] eqn:Hget.
  - now destruct (Hscalar v).
  - cbv zeta. rewrite Hguard. apply Hmain.
  - cbv zeta. rewrite Hguard. apply Hmain.
Qed.

Lemma update_time_returns_witness :
  tracked ITER_TRAIN_TIME example_tracker = true /\
  derived_value 0 0.5 None = Returns 0.5%float /\
  1 <= max_history example_tracker /\
  (snd (update_time ITER_TRAIN_TIME 0 0.5 (Some 400) None example_tracker)
   = Returns tt
   <-> (ITER_TRAIN_TIME = ITER_TRAIN_TIME -> tracked ETA example_tracker = true ->
        exists r, Py.float_of_int
                    (max_num_iterations (config example_tracker) - 400)
                  = Returns r)).
Proof.
  split; [reflexivity|]. split; [reflexivity|]. split; [simpl; lia|].
  refine (update_time_returns ITER_TRAIN_TIME 0 0.5 400 None 0.5 example_tracker
            eq_refl eq_refl _ _).
  - intros v. discriminate.
  - simpl. lia.
Defined.

(** ** Buffers below capacity *)

(** X13.  Below capacity nothing is evicted: with a step, on a tracked key,
    a derived value is appended to a buffer shorter than [max_history], and
    starts a buffer of one on an absent key when [max_history] is positive;
    the average stored is the mean of the new buffer. *)
Theorem update_time_appends_below_capacity (name : Stats) (s e : float)
    (st : Z) (bs : option Z) (val : float) (self : StatsTracker) :
  tracked name self = true ->
  derived_value s e bs = Returns val ->
  (forall buf avg,
     dict_get name (stats_dict self) = Some (Averaged buf avg) ->
     Z.of_nat (List.length buf) < max_history self ->
     dict_get name (stats_dict (fst (update_time name s e (Some st) bs self)))
     = Some (Averaged (buf ++ [val]) (arithmetic_mean (buf ++ [val])))) /\
  (dict_get name (stats_dict self) = None ->
   1 <= max_history self ->
   dict_get name (stats_dict (fst (update_time name s e (Some st) bs self)))
   = Some (Averaged [val] (arithmetic_mean [val]))).
Proof.
  intros Ht Hval.
  pose proof (update_time_stored name s e st bs val self Ht Hval) as Hst.
  cbv zeta in Hst. split.
  - intros buf avg Hget Hlen. rewrite Hget in Hst. simpl buffer_of in Hst.
    unfold pushed in Hst.
    replace (max_history self <=? Z.of_nat (List.length buf)) with false in Hst
      by (symmetry; apply Z.leb_gt; exact Hlen).
    apply Hst; [intro v; discriminate | right; lia].
  - intros Hget Hcap. rewrite Hget in Hst. simpl buffer_of in Hst.
    unfold pushed in Hst. simpl List.length in Hst.
    replace (max_history self <=? Z.of_nat 0) with false in Hst
      by (symmetry; apply Z.leb_gt; simpl; lia).
    apply Hst; [intro v; discriminate | right; exact Hcap].
Qed.

Lemma update_time_appends_below_capacity_witness :
  tracked RAYS_PER_SEC
    (fst (update_time RAYS_PER_SEC 0 1 (Some 1) None example_tracker)) = true /\
  derived_value 0 6 (Some 3) = Returns 0.5%float /\
  dict_get RAYS_PER_SEC
    (stats_dict (fst (update_time RAYS_PER_SEC 0 6 (Some 2) (Some 3)
                        (fst (update_time RAYS_PER_SEC 0 1 (Some 1) None
                                          example_tracker)))))
  = Some (Averaged ([1%float] ++ [0.5%float])
                   (arithmetic_mean ([1%float] ++ [0.5%float]))).
Proof.
  split; [reflexivity|]. split; [reflexivity|].
  refine (proj1 (update_time_appends_below_capacity RAYS_PER_SEC 0 6 2 (Some 3) 0.5
                   (fst (update_time RAYS_PER_SEC 0 1 (Some 1) None example_tracker))
                   eq_refl eq_refl) [1%float] 1%float eq_refl _).
  simpl. lia.
Defined.

(** ** What the display methods print and raise *)

Lemma run_past_stats (fmt : Formatting) (calls : list call) (self : StatsTracker) :
  past_stats (run fmt calls self) = past_stats self.
Proof.
  induction calls as [|c calls IH] using rev_ind; [reflexivity|].
  rewrite run_snoc, <- IH. set (mid := run fmt calls self).
  destruct c as [name value st | name s e st bs | fd]; simpl.
  - destruct (tracked name mid) eqn:Ht.
    + now rewrite update_value_tracked.
    + now rewrite update_value_untracked.
  - destruct (tracked name mid) eqn:Ht.
    + destruct (update_time_shape name s e st bs mid Ht) as [d ->]. reflexivity.
    + now rewrite update_time_untracked.
  - unfold print_stats. now rewrite handle_stats_state.
Qed.

(** *** Rendering an int that is small *)

Lemma nb_digits_double (d : Decimal.uint) :
  (Decimal.nb_digits (Decimal.Little.double d) <= S (Decimal.nb_digits d))%nat /\
  (Decimal.nb_digits (Decimal.Little.succ_double d) <= S (Decimal.nb_digits d))%nat.
Proof. induction d; simpl; [lia | destruct IHd; lia ..]. Qed.

Lemma nb_digits_to_little_uint (p : positive) :
  (Decimal.nb_digits (Pos.to_little_uint p) <= Pos.size_nat p)%nat.
Proof.
  induction p as [p IH|p IH|]; simpl; [| |lia].
  - pose proof (proj2 (nb_digits_double (Pos.to_little_uint p))). lia.
  - pose proof (proj1 (nb_digits_double (Pos.to_little_uint p))). lia.
Qed.

Lemma string_of_uint_length (d : Decimal.uint) :
  String.length (NilEmpty.string_of_uint d) = Decimal.nb_digits d.
Proof. induction d; simpl; congruence. Qed.

Lemma decimal_length_pos (p : positive) :
  (String.length (Py.decimal (Zpos p)) <= Pos.size_nat p)%nat.
Proof.
  unfold Py.decimal. simpl Z.to_int. unfold NilZero.string_of_int, NilZero.string_of_uint.
  pose proof (DecimalPos.Unsigned.to_uint_nonnil p) as Hnil.
  pose proof (nb_digits_to_little_uint p) as Hlen.
  rewrite <- (DecimalFacts.nb_digits_rev (Pos.to_little_uint p)) in Hlen.
  fold (Pos.to_uint p) in Hlen.
  rewrite <- string_of_uint_length in Hlen.
  destruct (Pos.to_uint p); [congruence | exact Hlen ..].
Qed.

Lemma size_nat_bound (p : positive) (k : nat) :
  Zpos p < 2 ^ Z.of_nat k -> (Pos.size_nat p <= k)%nat.
Proof.
  revert k. induction p as [p IH|p IH|]; intros k Hk; simpl.
  - destruct k as [|k]; [simpl in Hk; lia|].
    rewrite Nat2Z.inj_succ, Z.pow_succ_r in Hk by lia.
    specialize (IH k). lia.
  - destruct k as [|k]; [simpl in Hk; lia|].
    rewrite Nat2Z.inj_succ, Z.pow_succ_r in Hk by lia.
    specialize (IH k). lia.
  - destruct k as [|k]; [simpl in Hk; lia | lia].
Qed.

(** An int of machine size is far below the digit limit of [str]. *)
Lemma str_int_small (n : Z) :
  0 <= n < 2 ^ 64 -> Py.str_int n = Returns (Py.decimal n).
Proof.
  intros [Hlo Hhi]. unfold Py.str_int. rewrite Z.abs_eq by assumption.
  assert (Hlen : (String.length (Py.decimal n) <= 64)%nat).
  { destruct n as [|p|p]; [simpl; lia | | lia].
    pose proof (decimal_length_pos p). pose proof (size_nat_bound p 64 Hhi). lia. }
  replace (String.length (Py.decimal n) <=? 4300)%nat with true; [reflexivity|].
  symmetry. apply Nat.leb_le.
  apply (Nat.le_trans _ 64); [exact Hlen|].
  now apply Nat.leb_le.
Qed.

Lemma cursorup_len {A : Type} (l : list A) :
  cursorup (Py.len l + 2) = Returns (cursorup_text (Py.len l + 2)).
Proof.
  unfold cursorup, cursorup_text. rewrite str_int_small; [reflexivity|].
  unfold Py.len.
  pose proof (Z.mod_pos_bound (Z.of_nat (List.length l)) (2 ^ 63) eq_refl).
  change (2 ^ 64) with (2 * 2 ^ 63). lia.
Qed.

(** [handle_header] in closed form. *)
Lemma handle_header_closed (self : StatsTracker) :
  handle_header self
  = (self,
     if step_is_zero self || new_key self then
       match step self with
       | None => Raises TypeError
       | Some s =>
           let rule := String.concat "" (List.repeat "-"%string
                         (String.length (header_row (stats_dict self)))) in
           Returns
             (if 0 <? s
              then fold_left (fun out mssg => (out ++ print_line mssg)%string)
                     (past_stats self)
                     (cursorup_text (Py.len (past_stats self) + 2)
                      ++ print_line (header_row (stats_dict self))
                      ++ print_line rule)%string
              else (print_line (header_row (stats_dict self))
                    ++ print_line rule)%string)
       end
     else Returns EmptyString).
Proof.
  unfold handle_header, step_positive, header_row, bind, get, lift, ret, raise.
  destruct (step_is_zero self || new_key self); [|reflexivity].
  destruct (step self) as [s|] eqn:Hstep; [|reflexivity].
  destruct (0 <? s) eqn:Hpos.
  - rewrite cursorup_len, Hstep, Hpos. reflexivity.
  - rewrite Hstep, Hpos. reflexivity.
Qed.

(** X14.  [handle_header] raises only a [TypeError], and exactly when the
    step is [None] while the flag is up; with the flag down and a step other
    than [0] (or [None]) it prints nothing; at step [0] it prints the header
    and a rule of dashes of the same length, without moving the cursor; at a
    positive step with the flag up it first moves the cursor up
    [len(past_stats) + 2] lines and reprints [past_stats] after the rule. *)
Theorem handle_header_outcome (self : StatsTracker) :
  (forall err,
     snd (handle_header self) = Raises err
     <-> step self = None /\ new_key self = true /\ err = TypeError) /\
  (new_key self = false -> step self <> Some 0 ->
   handle_header self = (self, Returns EmptyString)) /\
  (forall s,
     step self = Some s -> s = 0 \/ new_key self = true ->
     let rule := String.concat "" (List.repeat "-"%string
                                     (String.length (header_row (stats_dict self)))) in
     handle_header self
     = (self,
        Returns
          (if 0 <? s
           then fold_left (fun out mssg => (out ++ print_line mssg)%string)
                  (past_stats self)
                  (cursorup_text (Py.len (past_stats self) + 2)
                   ++ print_line (header_row (stats_dict self))
                   ++ print_line rule)%string
           else (print_line (header_row (stats_dict self))
                 ++ print_line rule)%string))).
Proof.
  rewrite handle_header_closed. unfold step_is_zero.
  destruct (step self) as [s|] eqn:Hstep; simpl snd.
  - split; [|split].
    + intro err. split; [|intros (H & _); discriminate].
      destruct ((s =? 0) || new_key self); discriminate.
    + intros Hflag Hne. rewrite Hflag, orb_false_r.
      destruct (s =? 0) eqn:Hz; [|reflexivity].
      apply Z.eqb_eq in Hz. congruence.
    + intros s' Hs Hdue. injection Hs as <-.
      assert (Hor : (s =? 0) || new_key self = true).
      { destruct Hdue as [-> | ->]; [reflexivity | apply orb_true_r]. }
      rewrite Hor. reflexivity.
  - split; [|split].
    + intro err. destruct (new_key self); simpl.
      * split; [intro H; injection H as <-; auto | intros (_ & _ & ->); reflexivity].
      * split; [discriminate | intros (_ & H & _); discriminate].
    + intros -> _. reflexivity.
    + intros s Hs. discriminate.
Qed.

Lemma stat_cell_raises (fmt : Formatting) (k : Stats) (x : entry) (err : exn) :
  stat_cell fmt k x = Raises err ->
  Py.contains "(time)" (Stats_value k) = true /\
  timedelta_str fmt (shown_value x) = Raises err.
Proof.
  unfold stat_cell. fold (shown_value x).
  destruct (Py.contains "(time)" (Stats_value k)); [auto|].
  destruct (Py.contains "(ms)" (Stats_value k)); discriminate.
Qed.

Lemma stats_row_raises (fmt : Formatting) (d : dict) (acc : string) (err : exn) :
  stats_row fmt d acc = Raises err ->
  exists k x, In (k, x) d /\
    Py.contains "(time)" (Stats_value k) = true /\
    timedelta_str fmt (shown_value x) = Raises err.
Proof.
  revert acc. induction d as [|[k x] d IH]; intros acc; simpl; [discriminate|].
  destruct (stat_cell fmt k x) as [cell|e0] eqn:Hcell.
  - intro H. destruct (IH _ H) as (k' & x' & Hin & Hrest).
    exists k', x'. auto.
  - intro H. injection H as <-.
    exists k, x. split; [now left | now apply stat_cell_raises].
Qed.

(** [handle_stats] in closed form. *)
Lemma handle_stats_closed (fmt : Formatting) (fraction_done : float)
    (self : StatsTracker) :
  handle_stats fmt fraction_done self
  = (self,
     match step self with
     | None => Raises TypeError
     | Some s =>
         if 0 <? s then
           match Py.str_int s with
           | Raises err => Raises err
           | Returns step_text =>
               match stats_row fmt (stats_dict self)
                       (Py.ljust 20
                          (step_text ++ " ("
                           ++ format_2f fmt (PrimFloat.mul fraction_done 100%float)
                           ++ "%)")) with
               | Returns row => Returns (print_line row)
               | Raises err => Raises err
               end
           end
         else Returns EmptyString
     end).
Proof.
  unfold handle_stats, step_positive, bind, get, lift, ret, raise.
  destruct (step self) as [s|] eqn:Hstep; [|reflexivity].
  destruct (0 <? s); [|reflexivity].
  rewrite Hstep.
  destruct (Py.str_int s) as [step_text|err]; [|reflexivity].
  destruct (stats_row fmt (stats_dict self) _); reflexivity.
Qed.

Lemma str_int_positive (s : Z) :
  0 < s ->
  Py.str_int s
  = if (String.length (Py.decimal s) <=? 4300)%nat then Returns (Py.decimal s)
    else Raises ValueError.
Proof. intro Hs. unfold Py.str_int. now rewrite Z.abs_eq by lia. Qed.

(** X15.  With an int step, [handle_stats] writes nothing to the tracker
    and: at a step [<= 0] it prints nothing; at a positive step of at most
    4300 digits it prints one line when every [(time)] value can be
    rendered as a [timedelta]; what it raises at a positive step is either
    the [ValueError] of rendering a step of more than 4300 digits, or the
    error of the [timedelta] rendering on one of the [(time)] keys of the
    dictionary; keys of the other units never make it raise. *)
Theorem handle_stats_outcome (fmt : Formatting) (fraction_done : float)
    (self : StatsTracker) (s : Z) :
  step self = Some s ->
  (s <= 0 -> handle_stats fmt fraction_done self = (self, Returns EmptyString)) /\
  (0 < s ->
   (forall err,
      snd (handle_stats fmt fraction_done self) = Raises err ->
      (err = ValueError /\ (4300 < String.length (Py.decimal s))%nat) \/
      exists k x, In (k, x) (stats_dict self) /\
        Py.contains "(time)" (Stats_value k) = true /\
        timedelta_str fmt (shown_value x) = Raises err) /\
   ((String.length (Py.decimal s) <= 4300)%nat ->
    (forall k x, In (k, x) (stats_dict self) ->
       Py.contains "(time)" (Stats_value k) = true ->
       exists str, timedelta_str fmt (shown_value x) = Returns str) ->
    exists row,
      handle_stats fmt fraction_done self = (self, Returns (print_line row)))).
Proof.
  intro Hstep. rewrite handle_stats_closed, Hstep. split.
  - intro Hs. replace (0 <? s) with false by (symmetry; apply Z.ltb_ge; lia).
    reflexivity.
  - intro Hs. replace (0 <? s) with true by (symmetry; apply Z.ltb_lt; lia).
    rewrite (str_int_positive s Hs).
    destruct (String.length (Py.decimal s) <=? 4300)%nat eqn:Hlen.
    + split.
      * intro err.
        destruct (stats_row fmt (stats_dict self) _) as [row|e0] eqn:Hrow;
          [discriminate|].
        simpl. intro H. injection H as <-. right.
        now apply (stats_row_raises _ _ _ _ Hrow).
      * intros _ Htime.
        destruct (stats_row fmt (stats_dict self) _) as [row|e0] eqn:Hrow.
        -- now exists row.
        -- destruct (stats_row_raises _ _ _ _ Hrow) as (k & x & Hin & Hk & Herr).
           destruct (Htime k x Hin Hk) as [str Hstr]. congruence.
    + apply Nat.leb_gt in Hlen. split.
      * simpl. intros err H. injection H as <-. left. auto.
      * intro Hfit. exfalso. apply (Nat.lt_irrefl 4300).
        now apply (Nat.lt_le_trans _ (String.length (Py.decimal s))).
Qed.

Lemma handle_stats_outcome_witness :
  step (fst (update_time ITER_TRAIN_TIME 0 0.5 (Some 400) None example_tracker))
  = Some 400 /\
  handle_stats example_formatting 0.25
    (fst (update_time ITER_TRAIN_TIME 0 0.5 (Some 400) None example_tracker))
  = (fst (update_time ITER_TRAIN_TIME 0 0.5 (Some 400) None example_tracker),
     Returns (print_line (Py.ljust 20 "400 (0.00%)" ++ Py.ljust 20 "0.0000" ++ " "
                          ++ Py.ljust 20 "0:00:00" ++ " "))) /\
  (400 <= 0 ->
   handle_stats example_formatting 0.25
     (fst (update_time ITER_TRAIN_TIME 0 0.5 (Some 400) None example_tracker))
   = (fst (update_time ITER_TRAIN_TIME 0 0.5 (Some 400) None example_tracker),
      Returns EmptyString)).
Proof.
  split; [reflexivity|]. split; [reflexivity|].
  exact (proj1 (handle_stats_outcome example_formatting 0.25
                  (fst (update_time ITER_TRAIN_TIME 0 0.5 (Some 400) None
                                    example_tracker)) 400 eq_refl)).
Defined.

(** ** Columns *)

Lemma string_length_append (a b : string) :
  String.length (a ++ b) = (String.length a + String.length b)%nat.
Proof. induction a as [|c a IH]; simpl; [reflexivity | now rewrite IH]. Qed.

Lemma repeat_char_length (c : ascii) (n : nat) :
  String.length (String.concat "" (List.repeat (String c EmptyString) n)) = n.
Proof.
  induction n as [|n IH]; [reflexivity|].
  simpl List.repeat. destruct n as [|n]; [reflexivity|].
  change (String.concat "" (String c EmptyString :: List.repeat (String c EmptyString) (S n)))
    with (String c EmptyString ++ "" ++
          String.concat "" (List.repeat (String c EmptyString) (S n)))%string.
  rewrite !string_length_append, IH. reflexivity.
Qed.

Lemma ljust_length (n : nat) (s : string) :
  String.length (Py.ljust n s) = Nat.max n (String.length s).
Proof.
  unfold Py.ljust. rewrite string_length_append.
  change " "%string with (String " "%char EmptyString).
  rewrite repeat_char_length. lia.
Qed.

Lemma Stats_value_fits (k : Stats) : (String.length (Stats_value k) <= 20)%nat.
Proof. destruct k; simpl; lia. Qed.

Lemma header_row_length (d : dict) :
  String.length (header_row d) = (20 + 21 * List.length d)%nat.
Proof.
  unfold header_row.
  assert (Hfold : forall acc,
    String.length
      (fold_left (fun mssg (kv : Stats * entry) =>
                    (mssg ++ Py.ljust 20 (Stats_value (fst kv)) ++ " ")%string) d acc)
    = (String.length acc + 21 * List.length d)%nat).
  { induction d as [|[k x] d IH]; intro acc; simpl fold_left;
      [simpl; lia|].
    rewrite IH, !string_length_append, ljust_length.
    pose proof (Stats_value_fits k). simpl fst. simpl List.length.
    change (String.length " ") with 1%nat. lia. }
  rewrite Hfold, ljust_length. simpl String.length. lia.
Qed.

Lemma stats_row_length (fmt : Formatting) (d : dict) (acc : string) :
  (forall k x, In (k, x) d ->
     exists cell, stat_cell fmt k x = Returns cell /\
                  (String.length cell <= 20)%nat) ->
  exists row,
    stats_row fmt d acc = Returns row /\
    String.length row = (String.length acc + 21 * List.length d)%nat.
Proof.
  revert acc. induction d as [|[k x] d IH]; intros acc Hcells.
  - exists acc. simpl. split; [reflexivity | lia].
  - destruct (Hcells k x (or_introl eq_refl)) as (cell & Hcell & Hfit).
    destruct (IH (acc ++ Py.ljust 20 cell ++ " ")%string) as (row & Hrow & Hlen).
    { intros k' x' Hin. apply Hcells. now right. }
    exists row. simpl stats_row. rewrite Hcell. split; [exact Hrow|].
    rewrite Hlen, !string_length_append, ljust_length. simpl List.length.
    change (String.length " ") with 1%nat. lia.
Qed.

Lemma handle_stats_positive (fmt : Formatting) (fraction_done : float)
    (self : StatsTracker) (s : Z) :
  step self = Some s -> 0 < s ->
  (String.length (step_column fmt s fraction_done) <= 20)%nat ->
  handle_stats fmt fraction_done self
  = (self,
     match stats_row fmt (stats_dict self)
                     (Py.ljust 20 (step_column fmt s fraction_done)) with
     | Returns row => Returns (print_line row)
     | Raises err => Raises err
     end).
Proof.
  intros Hstep Hs Hcol.
  rewrite handle_stats_closed, Hstep.
  replace (0 <? s) with true by (symmetry; apply Z.ltb_lt; lia).
  rewrite (str_int_positive s Hs).
  unfold step_column in Hcol. rewrite string_length_append in Hcol.
  replace (String.length (Py.decimal s) <=? 4300)%nat with true; [reflexivity|].
  symmetry. apply Nat.leb_le.
  apply (Nat.le_trans _ 20); [lia | now apply Nat.leb_le].
Qed.

(** X16.  The columns line up: the header of [handle_header] is
    [20 + 21 * n] characters long for a dictionary of [n] keys (every label
    fits its 20-character column) and its rule of dashes has that length;
    at a positive step, when the step column and every rendered value fit
    in 20 characters, the line [handle_stats] prints has that length too. *)
Theorem columns_line_up (fmt : Formatting) (fraction_done : float)
    (self : StatsTracker) (s : Z) :
  step self = Some s ->
  0 < s ->
  (String.length (step_column fmt s fraction_done) <= 20)%nat ->
  (forall k x, In (k, x) (stats_dict self) ->
     exists cell, stat_cell fmt k x = Returns cell /\
                  (String.length cell <= 20)%nat) ->
  String.length (header_row (stats_dict self))
  = (20 + 21 * List.length (stats_dict self))%nat /\
  String.length
    (String.concat "" (List.repeat "-"%string
                         (String.length (header_row (stats_dict self)))))
  = String.length (header_row (stats_dict self)) /\
  exists row,
    handle_stats fmt fraction_done self = (self, Returns (print_line row)) /\
    String.length row = String.length (header_row (stats_dict self)).
Proof.
  intros Hstep Hs Hcol Hcells.
  split; [apply header_row_length|].
  split.
  { change "-"%string with (String "-"%char EmptyString).
    apply repeat_char_length. }
  destruct (stats_row_length fmt (stats_dict self)
              (Py.ljust 20 (step_column fmt s fraction_done)) Hcells)
    as (row & Hrow & Hlen).
  exists row. split.
  - rewrite (handle_stats_positive fmt fraction_done self s Hstep Hs Hcol).
    now rewrite Hrow.
  - rewrite Hlen, header_row_length, ljust_length. lia.
Qed.

Lemma columns_line_up_witness :
  step (fst (update_time ITER_TRAIN_TIME 0 0.5 (Some 400) None example_tracker))
  = Some 400 /\
  0 < 400 /\
  (String.length (step_column example_formatting 400 0.25) <= 20)%nat /\
  String.length
    (header_row
       (stats_dict (fst (update_time ITER_TRAIN_TIME 0 0.5 (Some 400) None
                                     example_tracker))))
  = (20 + 21 * 2)%nat.
Proof.
  split; [reflexivity|]. split; [lia|]. split; [simpl; lia|].
  refine (proj1 (columns_line_up example_formatting 0.25
                   (fst (update_time ITER_TRAIN_TIME 0 0.5 (Some 400) None
                                     example_tracker))
                   400 eq_refl _ _ _)).
  - lia.
  - simpl. lia.
  - intros k x Hin. simpl in Hin.
    destruct Hin as [H|[H|[]]]; injection H as <- <-;
      eexists; (split; [reflexivity | simpl; lia]).
Defined.

(** ** What no call touches *)

(** X17.  No sequence of calls changes what [__init__] set up besides the
    step, the dictionary and the flag: the configuration, [max_history] and
    the tracked set stay as they are, and [past_stats], which nothing
    appends to, stays as it is (empty, run from [__init__]). *)
Theorem run_keeps_configuration (fmt : Formatting) (calls : list call)
    (self : StatsTracker) :
  config (run fmt calls self) = config self /\
  max_history (run fmt calls self) = max_history self /\
  stats_to_track (run fmt calls self) = stats_to_track self /\
  past_stats (run fmt calls self) = past_stats self /\
  (forall cfg, init cfg = Returns (Enabled self) -> past_stats (run fmt calls self) = []).
Proof.
  destruct (run_frame fmt calls self) as (Hs & Hm & Hc).
  repeat split; try assumption.
  - apply run_past_stats.
  - intros cfg Hinit. rewrite run_past_stats.
    now destruct (init_starts_empty cfg self Hinit) as (_ & Hp & _).
Qed.
